(** * WMML launcher: resolution-and-assembly pipeline of [WMML.py]

    A shallow embedding of the pure part of [WMML.py] (rule evaluation,
    library path resolution, classpath construction, argument templating,
    command synthesis and the glue of [launch_minecraft]) together with
    the properties its specification states about it.

    Conventions of the embedding.
    - A Python [str] is a [string]; a character is a code point below 256.
    - A JSON object that the code uses as a record is a [Record]: a key
      the code reads unconditionally is a field, a key whose presence the
      code tests ([in], [.get]) is an [option] field.
    - A list subscript that can raise is written in the [py] error monad;
      a [try]/[except] is a [match] on its result.
    - [pathlib.Path], [os.sep] and [os.pathsep] depend on the platform:
      they are the operations of the class [PathFlavour]; [Posix] is the
      instance for [PurePosixPath].
    - The environment is a parameter: [platform.machine()], the file
      system ([Path.exists], which answers or raises [OSError]), the
      descriptor loader, [subprocess.Popen] and [Thread.start], each of
      which returns or raises. *)

From Stdlib Require Import String Ascii List Bool ZArith Lia DecimalString.
Import ListNotations.
Open Scope string_scope.

(** ** Python string methods *)

Module PyStr.

(** [s.startswith(p)] *)
Definition startswith (s p : string) : bool := String.prefix p s.

(** [s.endswith(p)] *)
Definition endswith (s p : string) : bool :=
  (String.length p <=? String.length s)%nat &&
  String.eqb (String.substring (String.length s - String.length p)
                               (String.length p) s) p.

(** [sep.join(l)] *)
Definition join (sep : string) (l : list string) : string :=
  String.concat sep l.

(** [s.split(c)] for a separator [c] of one character: every call site
    of the program passes a one-character separator. *)
Fixpoint split (c : ascii) (s : string) : list string :=
  match s with
  | EmptyString => [EmptyString]
  | String a s' =>
      if Ascii.eqb a c then EmptyString :: split c s'
      else match split c s' with
           | h :: t => String a h :: t
           | [] => [String a EmptyString]
           end
  end.

(** The scan of [s.replace(old, new)] for a non-empty [old]: [skip]
    counts the characters of a match that are still to be passed over. *)
Fixpoint replace_scan (old new : string) (skip : nat) (s : string) : string :=
  match s with
  | EmptyString => EmptyString
  | String a s' =>
      match skip with
      | S k => replace_scan old new k s'
      | O =>
          if String.prefix old s
          then new ++ replace_scan old new (String.length old - 1) s'
          else String a (replace_scan old new O s')
      end
  end.

(** For an empty [old], Python inserts [new] before every character and
    at the end. *)
Fixpoint intersperse_all (new s : string) : string :=
  match s with
  | EmptyString => new
  | String a s' => new ++ String a (intersperse_all new s')
  end.

(** [s.replace(old, new)] *)
Definition replace (s old new : string) : string :=
  match old with
  | EmptyString => intersperse_all new s
  | String _ _ => replace_scan old new O s
  end.

(** [c.isspace()] for a code point below 256. *)
Definition isspace (c : ascii) : bool :=
  let n := nat_of_ascii c in
  ((9 <=? n) && (n <=? 13) || (28 <=? n) && (n <=? 32)
   || (n =? 133) || (n =? 160))%nat.

Fixpoint lstrip (s : string) : string :=
  match s with
  | EmptyString => EmptyString
  | String a s' => if isspace a then lstrip s' else s
  end.

Fixpoint rstrip (s : string) : string :=
  match s with
  | EmptyString => EmptyString
  | String a s' =>
      match rstrip s' with
      | EmptyString => if isspace a then EmptyString else String a EmptyString
      | r => String a r
      end
  end.

(** [s.strip()] *)
Definition strip (s : string) : string := rstrip (lstrip s).

(** [f'{n}'] for an [int]. *)
Definition of_int (n : Z) : string := NilZero.string_of_int (Z.to_int n).

End PyStr.

(** ** Exceptions and the error monad *)

Inductive exn : Type :=
| IndexError
| FileNotFoundError (path : string)
| JSONDecodeError
| OSError (message : string)
| RuntimeError (message : string).

(** [str(error)] *)
Definition exn_str (e : exn) : string :=
  match e with
  | IndexError => "list index out of range"
  | FileNotFoundError p =>
      "[Errno 2] No such file or directory: '" ++ p ++ "'"
  | JSONDecodeError => "Expecting value: line 1 column 1 (char 0)"
  | OSError message => message
  | RuntimeError message => message
  end.

Inductive py (A : Type) : Type :=
| Ok (a : A)
| Raise (e : exn).
Arguments Ok {A} a.
Arguments Raise {A} e.

Definition bind {A B : Type} (m : py A) (k : A -> py B) : py B :=
  match m with
  | Ok a => k a
  | Raise e => Raise e
  end.

Notation "x <- m ;; k" := (bind m (fun x => k))
  (at level 61, m at next level, right associativity).

(** [l[i]] *)
Definition subscript {A : Type} (l : list A) (i : nat) : py A :=
  match nth_error l i with
  | Some a => Ok a
  | None => Raise IndexError
  end.

(** [d.get(k)] on a dict with string keys, [None] when [k not in d]. *)
Fixpoint dict_get {V : Type} (d : list (string * V)) (k : string) : option V :=
  match d with
  | [] => None
  | (k', v) :: d' => if String.eqb k' k then Some v else dict_get d' k
  end.

(** The two output streams of a process. *)
Inductive Stream : Type :=
| Stdout
| Stderr.

(** ** Platform: [pathlib], [os.sep], [os.pathsep] *)

Class PathFlavour : Type := {
  Path : Type;
  sep : string;                          (* os.sep *)
  pathsep : string;                      (* os.pathsep *)
  path_of : string -> Path;              (* Path(s) *)
  truediv : Path -> string -> Path;      (* p / s *)
  path_str : Path -> string;             (* str(p) *)
  is_absolute : Path -> bool             (* p.is_absolute() *)
}.

Declare Scope path_scope.
Delimit Scope path_scope with path.
Notation "p / s" := (truediv p s) : path_scope.

(** [str(p)] is never the empty string ([pathlib] prints the empty path
    as a dot). *)
Definition str_nonempty (F : PathFlavour) : Prop :=
  forall p : Path, path_str p <> "".

(** [PurePosixPath].  As in [pathlib], a path keeps the text it was
    built from; joining is [posixpath.join], and the text is parsed into
    a root (empty, one slash or two slashes) and components (without the
    empty ones and the dots) when the path is printed. *)
Module PosixPath.

Definition t : Type := string.

Fixpoint lstrip_sep (s : string) : string :=
  match s with
  | String "/" s' => lstrip_sep s'
  | _ => s
  end.

Definition keep_part (x : string) : bool :=
  negb (String.eqb x "") && negb (String.eqb x ".").

Definition root (p : t) : string :=
  let lead := String.length p - String.length (lstrip_sep p) in
  if (lead =? 0)%nat then ""
  else if (lead =? 2)%nat then "//" else "/".

Definition parts (p : t) : list string :=
  filter keep_part (PyStr.split "/" (lstrip_sep p)).

(** [posixpath.join(p, s)] *)
Definition join (p : t) (s : string) : t :=
  if PyStr.startswith s "/" then s
  else if String.eqb p "" || PyStr.endswith p "/" then p ++ s
  else p ++ "/" ++ s.

Definition str (p : t) : string :=
  match root p, parts p with
  | EmptyString, [] => "."
  | r, ps => r ++ PyStr.join "/" ps
  end.

Definition absolute (p : t) : bool := negb (String.eqb (root p) "").

End PosixPath.

#[export] Instance Posix : PathFlavour := {|
  Path := PosixPath.t;
  sep := "/";
  pathsep := ":";
  path_of := fun s => s;
  truediv := PosixPath.join;
  path_str := PosixPath.str;
  is_absolute := PosixPath.absolute
|}.

(** ** Data model: the JSON objects the code reads *)

(** [rule['os']]: [name] is read unconditionally, [arch] is tested. *)
Record OsConstraint : Type := {
  os_name : string;
  os_arch : option string
}.

(** An element of [lib['rules']]. *)
Record Rule : Type := {
  action : string;
  os : option OsConstraint
}.

(** An element of [version_json['libraries']]; [natives] maps a platform
    name to a classifier. *)
Record LibraryEntry : Type := {
  name : string;
  rules : option (list Rule);
  natives : option (list (string * string))
}.

(** An element of [version_json['arguments']['game']]: a string, or
    anything else (a conditional object). *)
Inductive GameArg : Type :=
| ArgStr (s : string)
| ArgOther.

Record Arguments : Type := {
  game : option (list GameArg)
}.

Record VersionDescriptor : Type := {
  id : string;
  mainClass : string;
  assets : option string;
  libraries : option (list LibraryEntry);
  minecraftArguments : option string;
  arguments : option Arguments
}.

(** The value under [options['memory']]: [None] or an [int]. *)
Inductive PyMemory : Type :=
| MemNone
| MemInt (n : Z).

Record Options : Type := {
  java_path : string;
  memory : option PyMemory;
  use_system_memory : option bool
}.

(** Truth value of a memory value in [if ... and memory]. *)
Definition memory_truthy (m : PyMemory) : bool :=
  match m with
  | MemNone => false
  | MemInt n => negb (n =? 0)%Z
  end.

(** [f'{memory}'] *)
Definition memory_str (m : PyMemory) : string :=
  match m with
  | MemNone => "None"
  | MemInt n => PyStr.of_int n
  end.

(** Truth value of an [Optional[str]] in [if lib_path]. *)
Definition path_truthy (p : option string) : bool :=
  match p with
  | None => false
  | Some s => negb (String.eqb s "")
  end.

(** The double-quote character, as a string. *)
Definition dquote : string := String (ascii_of_nat 34) EmptyString.

(** ** The pipeline of [WMML.py] *)

Section Pipeline.

Context {F : PathFlavour}.
Variable machine : string.                (* platform.machine() *)
(** [Path(s).exists()]: the truth value, or the [OSError] it raises. *)
Variable file_exists : string -> py bool.

Local Open Scope path_scope.

(** The architecture of [check_library_rules]. *)
Definition rules_os_arch : string :=
  if PyStr.endswith machine "64" then "x86_64" else "x86".

(** One iteration of [for rule in lib['rules']], from the running
    [should_include] to its next value. *)
Definition rule_step (should_include : bool) (rule : Rule) : bool :=
  let os_name' := "windows" in
  if String.eqb (action rule) "allow" then
    match os rule with
    | None => true
    | Some o =>
        if String.eqb (os_name o) os_name' then
          match os_arch o with
          | Some a => String.eqb a rules_os_arch
          | None => true
          end
        else false
    end
  else if String.eqb (action rule) "disallow" then
    match os rule with
    | None => false
    | Some o =>
        if String.eqb (os_name o) os_name' then false else should_include
    end
  else should_include.

Definition check_library_rules (lib : LibraryEntry) : bool :=
  match rules lib with
  | None => true
  | Some [] => true
  | Some rs => fold_left rule_step rs true
  end.

(** The architecture token of [get_library_path]. *)
Definition natives_arch : string :=
  if PyStr.endswith machine "64" then "64" else "32".

(** The body of the [try] of [get_library_path]. *)
Definition get_library_path_try (mc_path : Path) (lib : LibraryEntry)
  : py (option string) :=
  let parts := PyStr.split ":" (name lib) in
  part0 <- subscript parts 0 ;;
  let group_path := PyStr.replace part0 "." sep in
  artifact_id <- subscript parts 1 ;;
  version <- subscript parts 2 ;;
  let base_path := mc_path / "libraries" / group_path / artifact_id / version in
  let base_file := artifact_id ++ "-" ++ version in
  let regular : py (option string) :=
    let jar_path := base_path / (base_file ++ ".jar") in
    found <- file_exists (path_str jar_path) ;;
    if found then Ok (Some (path_str jar_path)) else Ok None in
  match natives lib with
  | Some natives' =>
      match dict_get natives' "windows" with
      | Some c =>
          let classifier := PyStr.replace c "${arch}" natives_arch in
          let native_path :=
            base_path / (base_file ++ "-" ++ classifier ++ ".jar") in
          found <- file_exists (path_str native_path) ;;
          if found then Ok (Some (path_str native_path)) else regular
      | None => regular
      end
  | None => regular
  end.

(** [get_library_path] with what it prints: the [except] clause catches
    every exception, prints one line and returns [None]. *)
Definition get_library_path_run (mc_path : Path) (lib : LibraryEntry)
  : list string * option string :=
  match get_library_path_try mc_path lib with
  | Ok r => ([], r)
  | Raise error => (["Error getting library path: " ++ exn_str error], None)
  end.

Definition get_library_path (mc_path : Path) (lib : LibraryEntry)
  : option string :=
  snd (get_library_path_run mc_path lib).

(** One iteration of [for lib in version_json['libraries']] on the list
    [result]. *)
Definition libraries_step (mc_path : Path) (result : list string)
  (lib : LibraryEntry) : list string :=
  if negb (check_library_rules lib) then result
  else
    let lib_path := get_library_path mc_path lib in
    match lib_path with
    | Some p => if path_truthy lib_path then (result ++ [p])%list else result
    | None => result
    end.

(** The list [result] of [build_libraries_path] when the loop ends. *)
Definition classpath_entries (mc_path : Path) (version_json : VersionDescriptor)
  : list string :=
  let result :=
    [path_str (mc_path / "versions" / id version_json
               / (id version_json ++ ".jar"))] in
  match libraries version_json with
  | Some libs => fold_left (libraries_step mc_path) libs result
  | None => result
  end.

Definition build_libraries_path (mc_path : Path)
  (version_json : VersionDescriptor) : string :=
  PyStr.join pathsep (classpath_entries mc_path version_json).

(** The list [args] of [build_game_arguments] before it is joined. *)
Definition game_tokens (version_json : VersionDescriptor) : list string :=
  let args := [] in
  let args :=
    match minecraftArguments version_json with
    | Some s => (args ++ PyStr.split " " s)%list
    | None => args
    end in
  match arguments version_json with
  | Some a =>
      match game a with
      | Some g =>
          fold_left (fun args arg =>
                       match arg with
                       | ArgStr s => (args ++ [s])%list
                       | ArgOther => args
                       end) g args
      | None => args
      end
  | None => args
  end.

(** The dict [replacements], in insertion order. *)
Definition replacements (mc_path : Path) (version_name player_name : string)
  (version_json : VersionDescriptor) : list (string * string) :=
  let assets_path := mc_path / "assets" in
  let assets_index :=
    match assets version_json with Some a => a | None => "" end in
  [ ("${auth_player_name}", player_name);
    ("${version_name}", version_name);
    ("${game_directory}", path_str mc_path);
    ("${assets_root}", path_str assets_path);
    ("${assets_index_name}", assets_index);
    ("${auth_uuid}", "00000000-0000-0000-0000-000000000000");
    ("${auth_access_token}", "00000000000000000000000000000000");
    ("${user_type}", "legacy");
    ("${version_type}", dquote ++ "WMML 0.1.26" ++ dquote) ].

(** [for placeholder, value in replacements.items(): args_str = ...] *)
Definition substitute (table : list (string * string)) (args_str : string)
  : string :=
  fold_left (fun args_str kv => PyStr.replace args_str (fst kv) (snd kv))
            table args_str.

Definition build_game_arguments (mc_path : Path)
  (version_name player_name : string) (version_json : VersionDescriptor)
  : string :=
  let args_str := PyStr.join " " (game_tokens version_json) in
  let args_str :=
    substitute (replacements mc_path version_name player_name version_json)
               args_str in
  PyStr.strip args_str.

(** The tokens of the [# Memory settings] block. *)
Definition memory_args (options : Options) : list string :=
  let memory' :=
    match memory options with Some m => m | None => MemInt 4096 end in
  let use_system_memory' :=
    match use_system_memory options with Some b => b | None => false end in
  if negb use_system_memory' && memory_truthy memory'
  then ["-Xmx" ++ memory_str memory' ++ "M";
        "-Xms" ++ memory_str memory' ++ "M"]
  else [].

(** The list [common_args]. *)
Definition common_args (mc_path : Path) (version_name : string)
  : list string :=
  let natives_dir :=
    path_str (mc_path / "versions" / version_name / "natives-windows-x86_64") in
  [ "-Dfile.encoding=GB18030";
    "-Dsun.stdout.encoding=GB18030";
    "-Dsun.stderr.encoding=GB18030";
    "-Djava.rmi.server.useCodebaseOnly=true";
    "-Dcom.sun.jndi.rmi.object.trustURLCodebase=false";
    "-Dcom.sun.jndi.cosnaming.object.trustURLCodebase=false";
    "-Dlog4j2.formatMsgNoLookups=true";
    "-Dlog4j.configurationFile="
      ++ path_str (mc_path / "versions" / version_name / "log4j2.xml");
    "-Dminecraft.client.jar="
      ++ path_str (mc_path / "versions" / version_name
                   / (version_name ++ ".jar"));
    "-XX:+UnlockExperimentalVMOptions";
    "-XX:+UseG1GC";
    "-XX:G1NewSizePercent=20";
    "-XX:G1ReservePercent=20";
    "-XX:MaxGCPauseMillis=50";
    "-XX:G1HeapRegionSize=32m";
    "-XX:-UseAdaptiveSizePolicy";
    "-XX:-OmitStackTraceInFastThrow";
    "-XX:-DontCompileHugeMethods";
    "-Dfml.ignoreInvalidMinecraftCertificates=true";
    "-Dfml.ignorePatchDiscrepancies=true";
    "-XX:HeapDumpPath=MojangTricksIntelDriversForPerformance_javaw.exe_minecraft.exe.heapdump";
    "-Djava.library.path=" ++ natives_dir;
    "-Djna.tmpdir=" ++ natives_dir;
    "-Dorg.lwjgl.system.SharedLibraryExtractPath=" ++ natives_dir;
    "-Dio.netty.native.workdir=" ++ natives_dir;
    "-Dminecraft.launcher.brand=WMML";
    "-Dminecraft.launcher.version=0.1.26" ].

Definition build_java_command (mc_path : Path)
  (version_name main_class libraries' game_args : string)
  (options : Options) : list string :=
  let command := [java_path options] in
  let command := (command ++ memory_args options)%list in
  let command := (command ++ common_args mc_path version_name)%list in
  let command := (command ++ ["-cp"; libraries'])%list in
  let command := (command ++ [main_class])%list in
  let command := (command ++ PyStr.split " " game_args)%list in
  command.

(** The [# Normalize path] step of [launch_minecraft]. *)
Definition normalize_root (mc_path : string) : Path :=
  let mc_path' := path_of mc_path in
  if negb (PyStr.endswith (path_str mc_path') sep)
  then path_of (path_str mc_path' ++ sep)
  else mc_path'.

(** The process handle, [subprocess.Popen] and [Thread(...).start()] on
    one of the two output streams of the process with its prefix. *)
Context {Process : Type}.
Variable Popen : list string -> py Process.
Variable thread_start : Process -> Stream -> string -> py unit.

(** The [# Execute command] block and the two reader threads. *)
Definition execute_command (java_command : list string) : py Process :=
  process <- Popen java_command ;;
  stdout_reader <- thread_start process Stdout "" ;;
  stderr_reader <- thread_start process Stderr "stderr: " ;;
  Ok process.

(** [launch_minecraft]: the process it returns, or the exception that
    the [except] clause prints and raises again; the lines it prints
    are left out.  [load] is [json.load] on the opened file. *)
Definition launch_minecraft (load : string -> py VersionDescriptor)
  (mc_path version_name player_name : string) (options : Options)
  : py Process :=
  let mc_path := normalize_root mc_path in
  let version_json_path :=
    mc_path / "versions" / version_name / (version_name ++ ".json") in
  version_json <- load (path_str version_json_path) ;;
  let main_class := mainClass version_json in
  let libraries' := build_libraries_path mc_path version_json in
  let game_args :=
    build_game_arguments mc_path version_name player_name version_json in
  let java_command :=
    build_java_command mc_path version_name main_class libraries' game_args
                       options in
  execute_command java_command.

End Pipeline.

(** ** The specification's vocabulary

    The definitions below follow the words of the specification; the
    theorems compare them with the pipeline above. *)

Section Vocabulary.

Context {F : PathFlavour}.
Variable machine : string.
Variable file_exists : string -> py bool.

Local Open Scope path_scope.

(** The rules of an entry, none when the key is absent. *)
Definition rules_of (lib : LibraryEntry) : list Rule :=
  match rules lib with Some rs => rs | None => [] end.

(** The decision a rule imposes whatever the running value is, if any:
    the four bullets of the rule evaluator. *)
Definition rule_verdict (rule : Rule) : option bool :=
  if String.eqb (action rule) "allow" then
    match os rule with
    | None => Some true
    | Some o =>
        if String.eqb (os_name o) "windows" then
          match os_arch o with
          | Some a => Some (String.eqb a (rules_os_arch machine))
          | None => Some true
          end
        else Some false
    end
  else if String.eqb (action rule) "disallow" then
    match os rule with
    | None => Some false
    | Some o => if String.eqb (os_name o) "windows" then Some false else None
    end
  else None.

(** Whether a rule imposes a decision. *)
Definition imposes (r : Rule) : bool :=
  match rule_verdict r with Some _ => true | None => false end.

(** Last match wins: the verdict of the last rule that imposes one, and
    [true] when no rule does. *)
Fixpoint last_match_wins (rs : list Rule) : bool :=
  match rs with
  | [] => true
  | r :: rs' =>
      if existsb imposes rs'
      then last_match_wins rs'
      else match rule_verdict r with Some v => v | None => true end
  end.

(** The classifier an entry declares for the current platform. *)
Definition native_classifier (lib : LibraryEntry) : option string :=
  match natives lib with
  | Some d => dict_get d "windows"
  | None => None
  end.

(** [root/libraries/<group with dots as separators>/<artifact>/<version>] *)
Definition library_base (mc_path : Path) (g a v : string) : Path :=
  mc_path / "libraries" / PyStr.replace g "." sep / a / v.

(** [<base>/<artifact>-<version>.jar] *)
Definition regular_jar (mc_path : Path) (g a v : string) : string :=
  path_str (library_base mc_path g a v / (a ++ "-" ++ v ++ ".jar")).

(** [<base>/<artifact>-<version>-<classifier>.jar], the architecture
    placeholder of the classifier substituted. *)
Definition native_jar (mc_path : Path) (g a v c : string) : string :=
  path_str (library_base mc_path g a v
            / (a ++ "-" ++ v ++ "-"
               ++ PyStr.replace c "${arch}" (natives_arch machine) ++ ".jar")).

(** One existence check on a jar, with what is printed: the jar when
    the check answers yes, [otherwise] when it answers no, and one
    printed line with none when the check raises. *)
Definition probe (jar : string) (otherwise : list string * option string)
  : list string * option string :=
  match file_exists jar with
  | Ok true => ([], Some jar)
  | Ok false => otherwise
  | Raise error => (["Error getting library path: " ++ exn_str error], None)
  end.

(** Steps 2 and 3 of the path resolver for the coordinate [g:a:v], with
    what is printed. *)
Definition resolve_run (mc_path : Path) (lib : LibraryEntry) (g a v : string)
  : list string * option string :=
  let regular := probe (regular_jar mc_path g a v) ([], None) in
  match native_classifier lib with
  | Some c => probe (native_jar mc_path g a v c) regular
  | None => regular
  end.

(** An entry with its coordinate replaced. *)
Definition with_name (lib : LibraryEntry) (coordinate : string)
  : LibraryEntry :=
  {| name := coordinate; rules := rules lib; natives := natives lib |}.

(** The resolved paths of the entries that the rule evaluator accepts
    and that resolve to a path, in the order of the entries. *)
Definition resolved_libraries (mc_path : Path) (libs : list LibraryEntry)
  : list string :=
  flat_map (fun lib =>
              if check_library_rules machine lib
              then match get_library_path machine file_exists mc_path lib with
                   | Some p => [p]
                   | None => []
                   end
              else []) libs.

(** The entries of a descriptor, none when the key is absent. *)
Definition libraries_of (version_json : VersionDescriptor)
  : list LibraryEntry :=
  match libraries version_json with Some libs => libs | None => [] end.

(** A descriptor with its entries replaced. *)
Definition with_libraries (version_json : VersionDescriptor)
  (libs : list LibraryEntry) : VersionDescriptor :=
  {| id := id version_json;
     mainClass := mainClass version_json;
     assets := assets version_json;
     libraries := Some libs;
     minecraftArguments := minecraftArguments version_json;
     arguments := arguments version_json |}.

(** [root/versions/<id>/<id>.jar] *)
Definition version_jar (mc_path : Path) (version_json : VersionDescriptor)
  : string :=
  path_str (mc_path / "versions" / id version_json
            / (id version_json ++ ".jar")).


End Vocabulary.

(** A placeholder name without a dollar sign or a closing brace. *)
Fixpoint plain_name (n : string) : bool :=
  match n with
  | EmptyString => true
  | String a n' =>
      negb (Ascii.eqb a "$") && negb (Ascii.eqb a "}") && plain_name n'
  end.

(** A text without a dollar sign. *)
Fixpoint dollar_free (s : string) : bool :=
  match s with
  | EmptyString => true
  | String a s' => negb (Ascii.eqb a "$") && dollar_free s'
  end.

(** The placeholder of a name. *)
Definition placeholder (n : string) : string := "${" ++ n ++ "}".

(** A table of placeholders of plain names other than [n]. *)
Definition avoids (n : string) (table : list (string * string)) : Prop :=
  Forall (fun kv => exists m, fst kv = placeholder m
                              /\ plain_name m = true /\ m <> n) table.

(** The names of the placeholders that [build_game_arguments] knows. *)
Definition recognized_names : list string :=
  [ "auth_player_name"; "version_name"; "game_directory"; "assets_root";
    "assets_index_name"; "auth_uuid"; "auth_access_token"; "user_type";
    "version_type" ].

(** ** Further vocabulary *)

(** A rule that leaves the running decision as it is: an action other
    than allow and disallow, or a disallow for another system. *)
Definition passes_through (r : Rule) : bool :=
  if String.eqb (action r) "allow" then false
  else if String.eqb (action r) "disallow" then
    match os r with
    | Some o => negb (String.eqb (os_name o) "windows")
    | None => false
    end
  else true.

(** An entry with its rules replaced. *)
Definition with_rules (lib : LibraryEntry) (rs : list Rule) : LibraryEntry :=
  {| name := name lib; rules := Some rs; natives := natives lib |}.

(** The string literals of [arguments.game]. *)
Definition modern_strings (version_json : VersionDescriptor) : list string :=
  match arguments version_json with
  | Some a =>
      match game a with
      | Some g => flat_map (fun arg => match arg with
                                       | ArgStr s => [s]
                                       | ArgOther => []
                                       end) g
      | None => []
      end
  | None => []
  end.

(** The tokens of the legacy template. *)
Definition legacy_tokens (version_json : VersionDescriptor) : list string :=
  match minecraftArguments version_json with
  | Some s => PyStr.split " " s
  | None => []
  end.

(** Whether a character occurs in a text. *)
Fixpoint has_char (c : ascii) (s : string) : bool :=
  match s with
  | EmptyString => false
  | String a s' => Ascii.eqb a c || has_char c s'
  end.

(** The number of occurrences of a character in a text. *)
Fixpoint count_char (c : ascii) (s : string) : nat :=
  match s with
  | EmptyString => 0
  | String a s' => (if Ascii.eqb a c then 1 else 0) + count_char c s'
  end.

(** A path component that [pathlib] keeps as it is: not empty, not a
    dot, without a slash. *)
Definition simple_component (x : string) : bool :=
  negb (String.eqb x "") && negb (String.eqb x ".")
  && negb (has_char "/" x).

(** A group name whose pieces between dots are not empty and have no
    slash. *)
Definition dotted_name (g : string) : bool :=
  negb (has_char "/" g)
  && forallb (fun x => negb (String.eqb x "")) (PyStr.split "." g).

(** Two POSIX paths with the same root and the same components. *)
Definition same_path (p q : PosixPath.t) : Prop :=
  PosixPath.root p = PosixPath.root q /\ PosixPath.parts p = PosixPath.parts q.

(** ** Sample inputs *)

Module Sample.

(** A file system that holds the listed files and answers every
    check. *)
Definition fs (files : list string) : string -> py bool :=
  fun p => Ok (existsb (String.eqb p) files).

(** A file system that holds the listed files and refuses a path with
    a component of more than 255 characters, as a POSIX file system
    does ([ENAMETOOLONG]). *)
Definition fs_limit (files : list string) : string -> py bool :=
  fun p =>
    if existsb (fun x => (255 <? String.length x)%nat) (PyStr.split "/" p)
    then Raise (OSError ("[Errno 36] File name too long: '" ++ p ++ "'"))
    else Ok (existsb (String.eqb p) files).

(** A process is represented by the argument vector it was started
    with; starting it and its readers succeeds. *)
Definition popen_ok : list string -> py (list string) :=
  fun argv => Ok argv.

Definition thread_ok : list string -> Stream -> string -> py unit :=
  fun _ _ _ => Ok tt.

(** No interpreter at the given path. *)
Definition popen_missing : list string -> py (list string) :=
  fun argv => Raise (FileNotFoundError (hd "" argv)).

Definition windows_only : Rule :=
  {| action := "allow";
     os := Some {| os_name := "windows"; os_arch := None |} |}.

Definition allow_all : Rule := {| action := "allow"; os := None |}.

Definition disallow_windows : Rule :=
  {| action := "disallow";
     os := Some {| os_name := "windows"; os_arch := None |} |}.

Definition disallow_osx : Rule :=
  {| action := "disallow";
     os := Some {| os_name := "osx"; os_arch := None |} |}.

Definition foo : LibraryEntry :=
  {| name := "org.example:foo:1.0"; rules := None; natives := None |}.

Definition foo_two_parts : LibraryEntry :=
  {| name := "org.example:foo"; rules := None; natives := None |}.

Definition foo_four_parts : LibraryEntry :=
  {| name := "org.example:foo:1.0:extra"; rules := None; natives := None |}.

Definition lwjgl : LibraryEntry :=
  {| name := "org.lwjgl:lwjgl-platform:2.9.4";
     rules := None;
     natives := Some [("linux", "natives-linux");
                      ("windows", "natives-windows-${arch}")] |}.

(** An entry whose windows classifier has 300 characters. *)
Definition long_classifier : LibraryEntry :=
  {| name := "org.example:foo:1.0";
     rules := None;
     natives := Some [("windows", String.concat "" (repeat "x" 300))] |}.

Definition osx_only : LibraryEntry :=
  {| name := "ca.weblite:java-objc-bridge:1.0.0";
     rules := Some [{| action := "allow";
                       os := Some {| os_name := "osx"; os_arch := None |} |}];
     natives := None |}.

Definition descriptor : VersionDescriptor :=
  {| id := "1.20.1";
     mainClass := "net.minecraft.client.main.Main";
     assets := Some "5";
     libraries := Some [foo; osx_only];
     minecraftArguments := Some "--username ${auth_player_name}";
     arguments := None |}.

Definition default_options : Options :=
  {| java_path := "java";
     memory := Some (MemInt 4096);
     use_system_memory := Some false |}.

Definition root : @Path Posix := @path_of Posix ".minecraft".

Definition files : list string :=
  [ ".minecraft/libraries/org/example/foo/1.0/foo-1.0.jar";
    ".minecraft/libraries/org/lwjgl/lwjgl-platform/2.9.4/lwjgl-platform-2.9.4-natives-windows-64.jar";
    ".minecraft/libraries/ca/weblite/java-objc-bridge/1.0.0/java-objc-bridge-1.0.0.jar" ].

End Sample.

(** * Properties *)

(** ** Concrete runs *)

Example split_empty : PyStr.split " " "" = [""].
Proof. reflexivity. Qed.

Example split_double : PyStr.split " " "a  b" = ["a"; ""; "b"].
Proof. reflexivity. Qed.

Example replace_overlap : PyStr.replace "aaa" "aa" "b" = "ba".
Proof. reflexivity. Qed.

Example replace_empty_old : PyStr.replace "abc" "" "-" = "-a-b-c-".
Proof. reflexivity. Qed.

Example strip_both : PyStr.strip "  a b  " = "a b".
Proof. reflexivity. Qed.

Example of_int_samples :
  PyStr.of_int 4096 = "4096" /\ PyStr.of_int 0 = "0" /\ PyStr.of_int (-5) = "-5".
Proof. repeat split. Qed.

Example endswith_samples :
  PyStr.endswith "AMD64" "64" = true /\ PyStr.endswith "x86" "64" = false
  /\ PyStr.endswith "4" "64" = false.
Proof. repeat split. Qed.

Example posix_str_samples :
  map (fun s => path_str (@path_of Posix s))
      [""; "."; "a/"; "/"; "//"; "///"; "//a//b/./c/"; "a/../b"; "./a"]
  = ["."; "."; "a"; "/"; "//"; "/"; "//a/b/c"; "a/../b"; "a"].
Proof. reflexivity. Qed.

Example posix_join_samples :
  map (fun ps => path_str (truediv (@path_of Posix (fst ps)) (snd ps)))
      [("a", ""); ("a", "/b"); ("a", "b/c"); (".", "a"); ("/", "a");
       ("//", "a"); ("a", "//b"); ("a", ".")]
  = ["a"; "/b"; "a/b/c"; "a"; "/a"; "//a"; "//b"; "a"].
Proof. reflexivity. Qed.

Example resolve_foo :
  get_library_path "AMD64" (Sample.fs Sample.files) Sample.root Sample.foo
  = Some ".minecraft/libraries/org/example/foo/1.0/foo-1.0.jar"
  /\ get_library_path "AMD64" (Sample.fs []) Sample.root Sample.foo = None.
Proof. split; reflexivity. Qed.

Example resolve_lwjgl :
  get_library_path "AMD64" (Sample.fs Sample.files) Sample.root Sample.lwjgl
  = Some ".minecraft/libraries/org/lwjgl/lwjgl-platform/2.9.4/lwjgl-platform-2.9.4-natives-windows-64.jar".
Proof. reflexivity. Qed.

Example resolve_four_parts :
  get_library_path_run "AMD64" (Sample.fs Sample.files) Sample.root
    Sample.foo_four_parts
  = ([], Some ".minecraft/libraries/org/example/foo/1.0/foo-1.0.jar").
Proof. reflexivity. Qed.

Example classpath_keeps_duplicates :
  build_libraries_path "AMD64" (Sample.fs Sample.files) Sample.root
    (with_libraries Sample.descriptor
       [Sample.foo; Sample.osx_only; Sample.foo_two_parts; Sample.foo])
  = ".minecraft/versions/1.20.1/1.20.1.jar"
    ++ ":.minecraft/libraries/org/example/foo/1.0/foo-1.0.jar"
    ++ ":.minecraft/libraries/org/example/foo/1.0/foo-1.0.jar".
Proof. reflexivity. Qed.

Example game_arguments_modern :
  build_game_arguments Sample.root "1.20.1" "Player123"
    {| id := "1.20.1"; mainClass := "Main"; assets := Some "5";
       libraries := None; minecraftArguments := None;
       arguments :=
         Some {| game := Some [ArgStr "--version"; ArgStr "${version_name}";
                               ArgOther; ArgStr "--assetIndex";
                               ArgStr "${assets_index_name}";
                               ArgStr "--gameDir";
                               ArgStr "${game_directory}";
                               ArgStr "--assetsDir";
                               ArgStr "${assets_root}"] |} |}
  = "--version 1.20.1 --assetIndex 5 --gameDir .minecraft --assetsDir .minecraft/assets".
Proof. reflexivity. Qed.

Example end_to_end :
  launch_minecraft "AMD64" (Sample.fs Sample.files)
    Sample.popen_ok Sample.thread_ok
    (fun _ => Ok Sample.descriptor) ".minecraft" "1.20.1" "Player123"
    Sample.default_options
  = Ok (["java"; "-Xmx4096M"; "-Xms4096M"]
        ++ common_args Sample.root "1.20.1"
        ++ ["-cp";
            ".minecraft/versions/1.20.1/1.20.1.jar:.minecraft/libraries/org/example/foo/1.0/foo-1.0.jar";
            "net.minecraft.client.main.Main"; "--username"; "Player123"])%list.
Proof. vm_compute. reflexivity. Qed.

Example resolve_long_classifier :
  get_library_path_run "AMD64" (Sample.fs_limit Sample.files) Sample.root
    Sample.long_classifier
  = (["Error getting library path: [Errno 36] File name too long: '"
      ++ ".minecraft/libraries/org/example/foo/1.0/foo-1.0-"
      ++ String.concat "" (repeat "x" 300) ++ ".jar'"], None)
  /\ get_library_path_run "AMD64" (Sample.fs_limit Sample.files) Sample.root
       Sample.foo
     = ([], Some ".minecraft/libraries/org/example/foo/1.0/foo-1.0.jar").
Proof. split; vm_compute; reflexivity. Qed.

Example launch_without_interpreter :
  launch_minecraft "AMD64" (Sample.fs Sample.files)
    Sample.popen_missing Sample.thread_ok
    (fun _ => Ok Sample.descriptor) ".minecraft" "1.20.1" "Player123"
    Sample.default_options
  = Raise (FileNotFoundError "java").
Proof. reflexivity. Qed.

Example launch_without_reader :
  launch_minecraft "AMD64" (Sample.fs Sample.files)
    Sample.popen_ok
    (fun _ stream _ =>
       match stream with
       | Stdout => Ok tt
       | Stderr => Raise (RuntimeError "can't start new thread")
       end)
    (fun _ => Ok Sample.descriptor) ".minecraft" "1.20.1" "Player123"
    Sample.default_options
  = Raise (RuntimeError "can't start new thread").
Proof. reflexivity. Qed.

Example launch_without_descriptor :
  launch_minecraft "AMD64" (Sample.fs Sample.files)
    Sample.popen_ok Sample.thread_ok
    (fun p => Raise (FileNotFoundError p)) ".minecraft" "1.20.1" "Player123"
    Sample.default_options
  = Raise (FileNotFoundError ".minecraft/versions/1.20.1/1.20.1.json").
Proof. reflexivity. Qed.

Example rules_samples :
  map (fun rs => check_library_rules "AMD64"
                   {| name := "g:a:1"; rules := rs; natives := None |})
      [ None; Some [];
        Some [Sample.windows_only];
        Some [Sample.allow_all; Sample.disallow_windows];
        Some [Sample.disallow_osx];
        Some [Sample.allow_all; Sample.disallow_osx];
        Some [Sample.disallow_windows; Sample.allow_all] ]
  = [true; true; true; false; true; true; true]
  /\ check_library_rules "AMD64" Sample.osx_only = false.
Proof. split; reflexivity. Qed.

(** ** Strings *)

Lemma append_assoc (s t u : string) : (s ++ t) ++ u = s ++ t ++ u.
Proof. induction s as [|a s IH]; cbn; [reflexivity | now rewrite IH]. Qed.

Lemma prefix_cons (a b : ascii) (s t : string) :
  String.prefix (String a s) (String b t) = Ascii.eqb a b && String.prefix s t.
Proof.
  change (String.prefix (String a s) (String b t))
    with (if ascii_dec a b then String.prefix s t else false).
  destruct (ascii_dec a b) as [->|Hab].
  - now rewrite Ascii.eqb_refl.
  - apply Ascii.eqb_neq in Hab. now rewrite Hab.
Qed.

Lemma prefix_nil_l (s : string) : String.prefix "" s = true.
Proof. destruct s; reflexivity. Qed.

Lemma startswith_char (a c : ascii) (s : string) :
  PyStr.startswith (String a s) (String c "") = Ascii.eqb c a.
Proof.
  unfold PyStr.startswith. rewrite prefix_cons, prefix_nil_l.
  apply andb_true_r.
Qed.

Lemma prefix_refl_app (p s : string) : String.prefix p (p ++ s) = true.
Proof.
  induction p as [|a p IH]; [apply prefix_nil_l|].
  cbn [append]. now rewrite prefix_cons, Ascii.eqb_refl.
Qed.

(** The scan passes over the rest of a match. *)
Lemma replace_scan_skip (old new o s : string) :
  PyStr.replace_scan old new (String.length o) (o ++ s)
  = PyStr.replace_scan old new 0 s.
Proof. induction o as [|a o IH]; [reflexivity | exact IH]. Qed.

(** The three equations of a literal replacement from left to right:
    the empty text, a text that starts with [old], and a text that does
    not. *)
Lemma replace_nil (a : ascii) (o new : string) :
  PyStr.replace "" (String a o) new = "".
Proof. reflexivity. Qed.

Lemma replace_head_match (a : ascii) (o new s : string) :
  PyStr.replace (String a o ++ s) (String a o) new
  = new ++ PyStr.replace s (String a o) new.
Proof.
  unfold PyStr.replace.
  change (PyStr.replace_scan (String a o) new 0 (String a o ++ s))
    with (if String.prefix (String a o) (String a o ++ s)
          then new ++ PyStr.replace_scan (String a o) new
                        (String.length (String a o) - 1) (o ++ s)
          else String a (PyStr.replace_scan (String a o) new 0 (o ++ s))).
  rewrite prefix_refl_app. cbn [String.length].
  replace (S (String.length o) - 1)%nat with (String.length o) by lia.
  now rewrite replace_scan_skip.
Qed.

Lemma replace_head_other (old new : string) (c : ascii) (s : string) :
  old <> "" ->
  String.prefix old (String c s) = false ->
  PyStr.replace (String c s) old new = String c (PyStr.replace s old new).
Proof.
  intros Hold Hp. destruct old as [|a o]; [now destruct Hold|].
  unfold PyStr.replace.
  change (PyStr.replace_scan (String a o) new 0 (String c s))
    with (if String.prefix (String a o) (String c s)
          then new ++ PyStr.replace_scan (String a o) new
                        (String.length (String a o) - 1) s
          else String c (PyStr.replace_scan (String a o) new 0 s)).
  now rewrite Hp.
Qed.

Lemma split_not_nil (c : ascii) (s : string) : PyStr.split c s <> [].
Proof.
  induction s as [|a s IH]; cbn; [discriminate|].
  destruct (Ascii.eqb a c); [discriminate|].
  destruct (PyStr.split c s); discriminate.
Qed.

(** Joining the pieces of a split gives the text back. *)
Lemma join_split (c : ascii) (s : string) :
  PyStr.join (String c "") (PyStr.split c s) = s.
Proof.
  unfold PyStr.join. induction s as [|a s IH]; [reflexivity|].
  cbn [PyStr.split]. destruct (Ascii.eqb_spec a c) as [->|_].
  - destruct (PyStr.split c s) as [|h t] eqn:Hs;
      [now destruct (split_not_nil c s)|].
    cbn [String.concat append] in *. now rewrite IH.
  - destruct (PyStr.split c s) as [|h t] eqn:Hs;
      [now destruct (split_not_nil c s)|].
    rewrite <- IH. destruct t; reflexivity.
Qed.

(** ** Library rule evaluator *)

Section RuleFacts.

Variable machine : string.

Lemma rule_step_verdict (b : bool) (r : Rule) :
  rule_step machine b r
  = match rule_verdict machine r with Some v => v | None => b end.
Proof.
  unfold rule_step, rule_verdict.
  destruct (String.eqb (action r) "allow").
  - destruct (os r) as [o|]; [|reflexivity].
    destruct (String.eqb (os_name o) "windows"); [|reflexivity].
    destruct (os_arch o); reflexivity.
  - destruct (String.eqb (action r) "disallow"); [|reflexivity].
    destruct (os r) as [o|]; [|reflexivity].
    destruct (String.eqb (os_name o) "windows"); reflexivity.
Qed.

Lemma check_library_rules_fold (lib : LibraryEntry) :
  check_library_rules machine lib
  = fold_left (rule_step machine) (rules_of lib) true.
Proof.
  unfold check_library_rules, rules_of.
  destruct (rules lib) as [[|r rs]|]; reflexivity.
Qed.

Lemma check_library_rules_snoc (nm : string) (nat : option (list (string * string)))
  (rs : list Rule) (r : Rule) :
  check_library_rules machine
    {| name := nm; rules := Some (rs ++ [r])%list; natives := nat |}
  = rule_step machine
      (check_library_rules machine
         {| name := nm; rules := Some rs; natives := nat |}) r.
Proof.
  rewrite !check_library_rules_fold. unfold rules_of. simpl.
  now rewrite fold_left_app.
Qed.

Lemma fold_rule_step_last (rs : list Rule) (b : bool) :
  fold_left (rule_step machine) rs b
  = if existsb (imposes machine) rs then last_match_wins machine rs else b.
Proof.
  revert b. induction rs as [|r rs IH]; intro b; [reflexivity|].
  cbn [fold_left existsb last_match_wins]. rewrite IH.
  rewrite rule_step_verdict. unfold imposes at 2.
  destruct (existsb (imposes machine) rs); [now rewrite orb_true_r|].
  rewrite orb_false_r.
  destruct (rule_verdict machine r); reflexivity.
Qed.

Lemma last_match_wins_none (rs : list Rule) :
  existsb (imposes machine) rs = false -> last_match_wins machine rs = true.
Proof.
  induction rs as [|r rs IH]; [reflexivity|].
  cbn [existsb last_match_wins].
  intro H. apply orb_false_iff in H as [Hr Hrs].
  rewrite Hrs. unfold imposes in Hr.
  destruct (rule_verdict machine r); [discriminate|reflexivity].
Qed.

End RuleFacts.

(** C2. Rule evaluation is a left-to-right fold of the rules over a
    running boolean that starts at true, and the last rule that imposes
    a decision wins: the result is the verdict of the last such rule, a
    rule appended to a list overrides the result of the list whenever it
    imposes a verdict, and the list [allow (no os); disallow (os =
    windows, no arch)] is decided false. *)
Theorem check_library_rules_last_match_wins (machine : string) :
  (forall lib,
      check_library_rules machine lib
      = fold_left (rule_step machine) (rules_of lib) true)
  /\ (forall lib,
         check_library_rules machine lib
         = last_match_wins machine (rules_of lib))
  /\ (forall nm nat rs r,
         check_library_rules machine
           {| name := nm; rules := Some (rs ++ [r])%list; natives := nat |}
         = match rule_verdict machine r with
           | Some v => v
           | None => check_library_rules machine
                       {| name := nm; rules := Some rs; natives := nat |}
           end)
  /\ (forall nm nat,
         check_library_rules machine
           {| name := nm;
              rules := Some [ {| action := "allow"; os := None |};
                              {| action := "disallow";
                                 os := Some {| os_name := "windows";
                                               os_arch := None |} |} ];
              natives := nat |}
         = false).
Proof.
  repeat split.
  - apply check_library_rules_fold.
  - intro lib. rewrite check_library_rules_fold, fold_rule_step_last.
    destruct (existsb (imposes machine) (rules_of lib)) eqn:E;
      [reflexivity|].
    symmetry. now apply last_match_wins_none.
  - intros. rewrite check_library_rules_snoc. apply rule_step_verdict.
Qed.

(** C3. A disallow rule whose OS constraint names another system than
    the current one passes the running decision through: one step keeps
    any prior value, appending the rule to any rule list keeps the
    result of the list, and the rule alone yields true. *)
Theorem disallow_other_os_passes_through (machine : string) (r : Rule)
  (o : OsConstraint) :
  action r = "disallow" ->
  os r = Some o ->
  os_name o <> "windows" ->
  (forall b, rule_step machine b r = b)
  /\ (forall nm nat rs,
         check_library_rules machine
           {| name := nm; rules := Some (rs ++ [r])%list; natives := nat |}
         = check_library_rules machine
             {| name := nm; rules := Some rs; natives := nat |})
  /\ (forall nm nat,
         check_library_rules machine
           {| name := nm; rules := Some [r]; natives := nat |} = true).
Proof.
  intros Ha Ho Hn.
  assert (Hstep : forall b, rule_step machine b r = b).
  { intro b. unfold rule_step. rewrite Ha, Ho. cbn.
    apply String.eqb_neq in Hn. now rewrite Hn. }
  repeat split.
  - exact Hstep.
  - intros. rewrite check_library_rules_snoc. apply Hstep.
  - intros. unfold check_library_rules. cbn. apply Hstep.
Qed.

Lemma disallow_other_os_passes_through_witness :
  (forall b, rule_step "AMD64" b Sample.disallow_osx = b)
  /\ (forall nm nat rs,
         check_library_rules "AMD64"
           {| name := nm; rules := Some (rs ++ [Sample.disallow_osx])%list;
              natives := nat |}
         = check_library_rules "AMD64"
             {| name := nm; rules := Some rs; natives := nat |})
  /\ (forall nm nat,
         check_library_rules "AMD64"
           {| name := nm; rules := Some [Sample.disallow_osx];
              natives := nat |} = true).
Proof.
  apply (disallow_other_os_passes_through "AMD64" Sample.disallow_osx
           {| os_name := "osx"; os_arch := None |}).
  - reflexivity.
  - reflexivity.
  - discriminate.
Defined.

(** ** Library path resolver and classpath builder *)

Section ResolverFacts.

Context {F : PathFlavour}.
Variable machine : string.
Variable file_exists : string -> py bool.
Variable mc_path : Path.

Local Open Scope path_scope.

Local Abbreviation get_path := (get_library_path machine file_exists mc_path).
Local Abbreviation get_run :=
  (get_library_path_run machine file_exists mc_path).
Local Abbreviation step := (libraries_step machine file_exists mc_path).

Ltac case_exists :=
  repeat match goal with
         | |- context [file_exists ?x] =>
             destruct (file_exists x) as [[]|]; cbn [bind]
         end.

(** With at least three parts no subscript raises and the first three
    parts decide the result and what is printed. *)
Lemma get_library_path_run_parts (lib : LibraryEntry) {g a v : string}
  {rest : list string} :
  PyStr.split ":" (name lib) = g :: a :: v :: rest ->
  get_run lib = resolve_run machine file_exists mc_path lib g a v.
Proof.
  intro Hs.
  unfold get_library_path_run, get_library_path_try, subscript.
  rewrite Hs. cbn [nth_error bind].
  unfold resolve_run, probe, native_classifier, native_jar, regular_jar,
    library_base.
  destruct (natives lib) as [d|]; [destruct (dict_get d "windows")|];
    rewrite !append_assoc; case_exists; reflexivity.
Qed.

(** With fewer than three parts a subscript raises [IndexError], which
    the [except] clause prints and turns into [None]. *)
Lemma get_library_path_run_short (lib : LibraryEntry) :
  (List.length (PyStr.split ":" (name lib)) < 3)%nat ->
  get_run lib
  = (["Error getting library path: list index out of range"], None).
Proof.
  intro Hl.
  unfold get_library_path_run, get_library_path_try.
  destruct (PyStr.split ":" (name lib)) as [|g [|a [|v rest]]];
    cbn in *; try reflexivity; lia.
Qed.

(** A returned path is the string of a [Path]. *)
Lemma get_library_path_is_str (lib : LibraryEntry) {p : string} :
  get_path lib = Some p -> exists q : Path, p = path_str q.
Proof.
  unfold get_library_path.
  destruct (PyStr.split ":" (name lib)) as [|g [|a [|v rest]]] eqn:Hs;
    try (rewrite get_library_path_run_short by (rewrite Hs; cbn; lia);
         discriminate).
  rewrite (get_library_path_run_parts _ Hs).
  unfold resolve_run, probe, native_jar, regular_jar.
  destruct (native_classifier lib) as [c|]; case_exists; cbn [snd];
    intro H; try discriminate H; injection H as <-; eauto.
Qed.

(** An entry that is rejected or does not resolve leaves [result] as it
    is. *)
Lemma libraries_step_skip (result : list string) (lib : LibraryEntry) :
  (if check_library_rules machine lib then get_path lib else None) = None ->
  step result lib = result.
Proof.
  unfold libraries_step.
  destruct (check_library_rules machine lib); cbn; [|reflexivity].
  now intros ->.
Qed.

Lemma libraries_step_resolved (result : list string) (lib : LibraryEntry) :
  str_nonempty F ->
  step result lib
  = (result ++ resolved_libraries machine file_exists mc_path [lib])%list.
Proof.
  intro Hne. unfold libraries_step, resolved_libraries. cbn.
  destruct (check_library_rules machine lib); cbn;
    [|now rewrite app_nil_r].
  destruct (get_path lib) as [p|] eqn:Hp; cbn; [|now rewrite app_nil_r].
  destruct (get_library_path_is_str _ Hp) as [q ->].
  destruct (String.eqb_spec (path_str q) ""); [now destruct (Hne q)|].
  reflexivity.
Qed.

Lemma resolved_libraries_app (l1 l2 : list LibraryEntry) :
  resolved_libraries machine file_exists mc_path (l1 ++ l2)
  = (resolved_libraries machine file_exists mc_path l1
     ++ resolved_libraries machine file_exists mc_path l2)%list.
Proof. unfold resolved_libraries. apply flat_map_app. Qed.

Lemma fold_libraries_step (libs : list LibraryEntry) (result : list string) :
  str_nonempty F ->
  fold_left step libs result
  = (result ++ resolved_libraries machine file_exists mc_path libs)%list.
Proof.
  intro Hne. revert result.
  induction libs as [|lib libs IH]; intro result.
  - cbn. now rewrite app_nil_r.
  - cbn [fold_left]. rewrite IH, libraries_step_resolved by assumption.
    change (lib :: libs) with ([lib] ++ libs)%list.
    now rewrite resolved_libraries_app, app_assoc.
Qed.

Lemma fold_libraries_step_skip (l1 l2 : list LibraryEntry)
  (lib : LibraryEntry) (result : list string) :
  (if check_library_rules machine lib then get_path lib else None) = None ->
  fold_left step (l1 ++ lib :: l2) result = fold_left step (l1 ++ l2) result.
Proof.
  intro Hskip. rewrite !fold_left_app. cbn [fold_left].
  now rewrite libraries_step_skip.
Qed.

End ResolverFacts.

(** ** The POSIX flavour *)

(** No piece of a split starts with the separator. *)
Lemma split_piece_head (c : ascii) (s x : string) :
  In x (PyStr.split c s) -> PyStr.startswith x (String c "") = false.
Proof.
  revert x. induction s as [|a s IH]; intros x Hin.
  - destruct Hin as [<-|[]]. reflexivity.
  - cbn in Hin. destruct (Ascii.eqb_spec a c) as [->|Hac].
    + destruct Hin as [<-|Hin]; [reflexivity | now apply IH].
    + destruct (PyStr.split c s) as [|h t] eqn:Hs.
      * now destruct (split_not_nil c s).
      * destruct Hin as [<-|Hin].
        -- rewrite startswith_char. apply Ascii.eqb_neq. congruence.
        -- apply IH. now right.
Qed.

Lemma lstrip_sep_other (a : ascii) (p : string) :
  a <> "/"%char -> PosixPath.lstrip_sep (String a p) = String a p.
Proof.
  intro Ha. destruct a as [[] [] [] [] [] [] [] []]; try reflexivity.
  now destruct Ha.
Qed.

Lemma lstrip_sep_head (p : string) :
  PyStr.startswith (PosixPath.lstrip_sep p) "/" = false.
Proof.
  induction p as [|a p IH]; [reflexivity|].
  destruct (Ascii.eqb_spec a "/") as [->|Ha]; [exact IH|].
  rewrite lstrip_sep_other by assumption.
  rewrite startswith_char. apply Ascii.eqb_neq. congruence.
Qed.

Lemma lstrip_sep_length (p : string) :
  (String.length (PosixPath.lstrip_sep p) <= String.length p)%nat.
Proof.
  induction p as [|a p IH]; [cbn; lia|].
  destruct (Ascii.eqb_spec a "/") as [->|Ha].
  - cbn [PosixPath.lstrip_sep String.length]. lia.
  - rewrite lstrip_sep_other by assumption. lia.
Qed.

(** The root is empty exactly for the texts that do not start with a
    slash, and starts with a slash otherwise. *)
Lemma posix_root_cases (p : string) :
  (PyStr.startswith p "/" = false /\ PosixPath.root p = "")
  \/ (PyStr.startswith p "/" = true
      /\ (PosixPath.root p = "/" \/ PosixPath.root p = "//")).
Proof.
  unfold PosixPath.root.
  destruct p as [|a p]; [left; split; reflexivity|].
  destruct (Ascii.eqb_spec a "/") as [->|Ha].
  - right. split; [now rewrite startswith_char|].
    cbn [PosixPath.lstrip_sep String.length].
    pose proof (lstrip_sep_length p) as Hl.
    destruct (Nat.eqb_spec (S (String.length p)
                            - String.length (PosixPath.lstrip_sep p)) 0);
      [lia|].
    destruct (_ =? 2)%nat; auto.
  - left.
    rewrite lstrip_sep_other by assumption.
    rewrite Nat.sub_diag. split; [|reflexivity].
    rewrite startswith_char. apply Ascii.eqb_neq. congruence.
Qed.

Lemma posix_part_shape (p x : string) :
  In x (PosixPath.parts p) ->
  exists a y, x = String a y /\ a <> "/"%char.
Proof.
  unfold PosixPath.parts. intro Hin.
  apply filter_In in Hin as [Hin Hk].
  apply split_piece_head in Hin.
  destruct x as [|a y]; [discriminate|].
  exists a, y. split; [reflexivity|].
  intros ->. rewrite startswith_char in Hin. discriminate.
Qed.

Lemma join_head {x : string} (l : list string) {a : ascii} {y : string} :
  x = String a y ->
  exists z, PyStr.join "/" (x :: l) = String a z.
Proof.
  intros ->. unfold PyStr.join. cbn.
  destruct l; eauto.
Qed.

(** [str(p)] starts with a slash exactly when the text of [p] does, and
    is never empty. *)
Lemma posix_str_head (p : string) :
  PosixPath.str p <> ""
  /\ PyStr.startswith (PosixPath.str p) "/" = PyStr.startswith p "/".
Proof.
  unfold PosixPath.str.
  destruct (posix_root_cases p) as [[Hs Hr]|[Hs [Hr|Hr]]];
    rewrite Hs, Hr.
  - destruct (PosixPath.parts p) as [|x l] eqn:Hp;
      [split; [discriminate | reflexivity]|].
    destruct (@posix_part_shape p x) as (a & y & Hx & Ha);
      [rewrite Hp; now left|].
    destruct (join_head l Hx) as [z ->]. cbn [append].
    split; [discriminate|].
    rewrite startswith_char. apply Ascii.eqb_neq. congruence.
  - cbn [append]. split; [discriminate | now rewrite startswith_char].
  - cbn [append]. split; [discriminate | now rewrite startswith_char].
Qed.

Lemma posix_str_nonempty : str_nonempty Posix.
Proof. intro p. apply posix_str_head. Qed.



(** ** The classpath builder *)

(** C5. The classpath is the version's own jar
    [root/versions/<id>/<id>.jar] first, whatever files exist, then the
    resolved paths of the entries that the rule evaluator accepts and
    that resolve to a path, in the order of the descriptor and with
    repetitions kept, joined with the path-list separator. *)
Theorem classpath_structure {F : PathFlavour} (machine : string)
  (file_exists : string -> py bool) (mc_path : Path)
  (version_json : VersionDescriptor) :
  str_nonempty F ->
  classpath_entries machine file_exists mc_path version_json
  = version_jar mc_path version_json
    :: resolved_libraries machine file_exists mc_path
         (libraries_of version_json)
  /\ build_libraries_path machine file_exists mc_path version_json
     = PyStr.join pathsep
         (version_jar mc_path version_json
          :: resolved_libraries machine file_exists mc_path
               (libraries_of version_json)).
Proof.
  intro Hne.
  assert (H : classpath_entries machine file_exists mc_path version_json
              = version_jar mc_path version_json
                :: resolved_libraries machine file_exists mc_path
                     (libraries_of version_json)).
  { unfold classpath_entries, libraries_of, version_jar.
    destruct (libraries version_json) as [libs|]; [|reflexivity].
    now rewrite fold_libraries_step. }
  split; [exact H|].
  unfold build_libraries_path. now rewrite H.
Qed.

Lemma classpath_structure_witness :
  classpath_entries "AMD64" (Sample.fs Sample.files) Sample.root
    Sample.descriptor
  = version_jar Sample.root Sample.descriptor
    :: resolved_libraries "AMD64" (Sample.fs Sample.files) Sample.root
         (libraries_of Sample.descriptor)
  /\ build_libraries_path "AMD64" (Sample.fs Sample.files) Sample.root
       Sample.descriptor
     = PyStr.join pathsep
         (version_jar Sample.root Sample.descriptor
          :: resolved_libraries "AMD64" (Sample.fs Sample.files) Sample.root
               (libraries_of Sample.descriptor)).
Proof.
  apply (classpath_structure "AMD64" (Sample.fs Sample.files) Sample.root
           Sample.descriptor).
  exact posix_str_nonempty.
Defined.

(** ** Argument templater *)

Lemma prefix_length (p s : string) :
  String.prefix p s = true -> (String.length p <= String.length s)%nat.
Proof.
  revert s. induction p as [|a p IH]; intros s H; [cbn; lia|].
  destruct s as [|b s]; [discriminate|].
  rewrite prefix_cons in H. apply andb_true_iff in H as [_ H].
  apply IH in H. cbn. lia.
Qed.

Lemma prefix_app_r (p s t : string) :
  String.prefix p s = true -> String.prefix p (s ++ t) = true.
Proof.
  revert s. induction p as [|a p IH]; intros s H; [apply prefix_nil_l|].
  destruct s as [|b s]; [discriminate|].
  cbn [append]. rewrite prefix_cons in *.
  apply andb_true_iff in H as [-> H]. now rewrite IH.
Qed.

(** A pattern without a dollar sign that matches across the dollar sign
    of the text matches before it. *)
Lemma prefix_dollar_free (o x t : string) :
  dollar_free o = true ->
  String.prefix o (x ++ String "$" t) = true ->
  String.prefix o x = true.
Proof.
  revert x. induction o as [|d o IH]; intros x Hd H; [apply prefix_nil_l|].
  cbn in Hd. apply andb_true_iff in Hd as [Hd Ho].
  destruct x as [|e x]; cbn [append] in H; rewrite prefix_cons in *.
  - apply andb_true_iff in H as [H _]. rewrite H in Hd. discriminate.
  - apply andb_true_iff in H as [-> H]. now rewrite (IH x).
Qed.

Section ReplaceFacts.

Variables old' new : string.
Hypothesis old_dollar_free : dollar_free old' = true.

Local Abbreviation old := (String "$" old').

Lemma prefix_old_app (a : ascii) (x t : string) :
  String.prefix old (String a x ++ String "$" t)
  = String.prefix old (String a x).
Proof.
  cbn [append]. rewrite !prefix_cons. destruct (Ascii.eqb "$" a); cbn;
    [|reflexivity].
  destruct (String.prefix old' (x ++ String "$" t)) eqn:H.
  - symmetry. now apply prefix_dollar_free with (t := t).
  - destruct (String.prefix old' x) eqn:H'; [|reflexivity].
    apply prefix_app_r with (t := String "$" t) in H'. congruence.
Qed.

(** The scan of a text in front of a dollar sign does not look past the
    dollar sign. *)
Lemma replace_scan_app (a t : string) (k : nat) :
  (k <= String.length a)%nat ->
  PyStr.replace_scan old new k (a ++ String "$" t)
  = PyStr.replace_scan old new k a
    ++ PyStr.replace_scan old new 0 (String "$" t).
Proof.
  revert k. induction a as [|c a IH]; intros k Hk.
  - cbn in Hk. assert (k = 0)%nat as -> by lia. reflexivity.
  - destruct k as [|k].
    + change (PyStr.replace_scan old new 0 (String c a ++ String "$" t))
        with (if String.prefix old (String c a ++ String "$" t)
              then new ++ PyStr.replace_scan old new (String.length old - 1)
                                             (a ++ String "$" t)
              else String c (PyStr.replace_scan old new 0
                                                (a ++ String "$" t))).
      change (PyStr.replace_scan old new 0 (String c a))
        with (if String.prefix old (String c a)
              then new ++ PyStr.replace_scan old new (String.length old - 1) a
              else String c (PyStr.replace_scan old new 0 a)).
      rewrite prefix_old_app.
      destruct (String.prefix old (String c a)) eqn:Hp.
      * apply prefix_length in Hp. cbn [String.length] in Hp.
        rewrite IH by (cbn [String.length]; lia).
        now rewrite append_assoc.
      * rewrite IH by lia. reflexivity.
    + cbn [append PyStr.replace_scan]. apply IH.
      cbn [String.length] in Hk. lia.
Qed.

(** A text without a dollar sign is copied by the scan. *)
Lemma replace_scan_dollar_free (w t : string) :
  dollar_free w = true ->
  PyStr.replace_scan old new 0 (w ++ t)
  = w ++ PyStr.replace_scan old new 0 t.
Proof.
  induction w as [|c w IH]; intro Hw; [reflexivity|].
  cbn in Hw. apply andb_true_iff in Hw as [Hc Hw].
  change (PyStr.replace_scan old new 0 (String c w ++ t))
    with (if String.prefix old (String c (w ++ t))
          then new ++ PyStr.replace_scan old new (String.length old - 1)
                                         (w ++ t)
          else String c (PyStr.replace_scan old new 0 (w ++ t))).
  rewrite prefix_cons.
  rewrite Ascii.eqb_sym in Hc. apply negb_true_iff in Hc. rewrite Hc.
  cbn [andb append]. now rewrite IH.
Qed.

End ReplaceFacts.

Lemma plain_name_dollar_free (n : string) :
  plain_name n = true -> dollar_free (String "{" (n ++ "}")) = true.
Proof.
  intro Hn. cbn [dollar_free]. cbn [Ascii.eqb Bool.eqb negb andb].
  induction n as [|c n IH]; [reflexivity|].
  cbn in Hn. apply andb_true_iff in Hn as [Hc Hn].
  apply andb_true_iff in Hc as [Hc _].
  cbn [append dollar_free]. now rewrite Hc, IH.
Qed.

(** Two plain names that are closed by a brace at the same place are
    the same name. *)
Lemma placeholder_match (m n b : string) :
  plain_name m = true -> plain_name n = true ->
  String.prefix (m ++ "}") (n ++ String "}" b) = true -> m = n.
Proof.
  revert n. induction m as [|d m IH]; intros n Hm Hn H.
  - destruct n as [|e n]; [reflexivity|].
    cbn in Hn. apply andb_true_iff in Hn as [He _].
    apply andb_true_iff in He as [_ He].
    cbn [append] in H. rewrite prefix_cons in H.
    apply andb_true_iff in H as [H _].
    rewrite Ascii.eqb_sym, H in He. discriminate.
  - cbn in Hm. apply andb_true_iff in Hm as [Hd Hm].
    apply andb_true_iff in Hd as [_ Hd].
    destruct n as [|e n]; cbn [append] in H; rewrite prefix_cons in H;
      apply andb_true_iff in H as [He H].
    + rewrite He in Hd. discriminate.
    + apply Ascii.eqb_eq in He as ->.
      cbn in Hn. apply andb_true_iff in Hn as [_ Hn].
      f_equal. now apply IH.
Qed.

(** Replacing one placeholder leaves another one where it is and
    treats the text before it and the text after it separately. *)
Lemma replace_placeholder_frame (m n new a b : string) :
  plain_name m = true -> plain_name n = true -> m <> n ->
  PyStr.replace (a ++ placeholder n ++ b) (placeholder m) new
  = PyStr.replace a (placeholder m) new
    ++ placeholder n ++ PyStr.replace b (placeholder m) new.
Proof.
  intros Hm Hn Hmn.
  pose proof (plain_name_dollar_free m Hm) as Hold.
  pose proof (plain_name_dollar_free n Hn) as Hw.
  unfold placeholder, PyStr.replace. cbn [append].
  rewrite (replace_scan_app _ new Hold) by lia. f_equal.
  change (PyStr.replace_scan (String "$" (String "{" (m ++ "}"))) new 0
            (String "$" (String "{" ((n ++ "}") ++ b))))
    with (if String.prefix (String "$" (String "{" (m ++ "}")))
                           (String "$" (String "{" ((n ++ "}") ++ b)))
          then new ++ PyStr.replace_scan
                        (String "$" (String "{" (m ++ "}"))) new
                        (String.length (String "$" (String "{" (m ++ "}"))) - 1)
                        (String "{" ((n ++ "}") ++ b))
          else String "$" (PyStr.replace_scan
                             (String "$" (String "{" (m ++ "}"))) new 0
                             (String "{" ((n ++ "}") ++ b)))).
  rewrite !prefix_cons. cbn [Ascii.eqb Bool.eqb andb].
  rewrite append_assoc. cbn [append].
  destruct (String.prefix (m ++ "}") (n ++ String "}" b)) eqn:Hp.
  - now apply placeholder_match in Hp.
  - f_equal.
    change (String "{" (n ++ String "}" b))
      with (String "{" (n ++ "}" ++ b)).
    rewrite <- append_assoc.
    change (String "{" ((n ++ "}") ++ b))
      with (String "{" (n ++ "}") ++ b).
    now rewrite (replace_scan_dollar_free (String "{" (m ++ "}")) new).
Qed.


Ltac avoid_with m :=
  apply Forall_cons;
  [ exists m; split; [reflexivity|]; split; [reflexivity|];
    match goal with H : forall m, In m recognized_names -> _ |- _ =>
      apply H; cbn; tauto
    end
  | ].

Lemma replacements_avoid {F : PathFlavour} (mc_path : Path)
  (version_name player_name : string) (version_json : VersionDescriptor)
  (n : string) :
  ~ In n recognized_names ->
  avoids n (replacements mc_path version_name player_name version_json).
Proof.
  intro Hn.
  assert (Hin : forall m, In m recognized_names -> m <> n)
    by (intros m Hm ->; exact (Hn Hm)).
  unfold avoids, replacements.
  avoid_with "auth_player_name". avoid_with "version_name".
  avoid_with "game_directory". avoid_with "assets_root".
  avoid_with "assets_index_name". avoid_with "auth_uuid".
  avoid_with "auth_access_token". avoid_with "user_type".
  avoid_with "version_type".
  apply Forall_nil.
Qed.


Lemma rstrip_cons_nonspace (d : ascii) (y : string) :
  PyStr.isspace d = false ->
  PyStr.rstrip (String d y) = String d (PyStr.rstrip y).
Proof.
  intro Hd. cbn [PyStr.rstrip].
  destruct (PyStr.rstrip y); [now rewrite Hd | reflexivity].
Qed.





(** ** Command synthesizer *)

Section CommandFacts.

Context {F : PathFlavour}.
Variable mc_path : Path.
Variables version_name main_class libraries' : string.

Lemma build_java_command_shape (game_args : string) (options : Options) :
  build_java_command mc_path version_name main_class libraries' game_args
    options
  = java_path options
    :: memory_args options
    ++ common_args mc_path version_name
    ++ "-cp" :: libraries' :: main_class :: PyStr.split " " game_args.
Proof.
  unfold build_java_command. cbn [app]. now rewrite <- !app_assoc.
Qed.

(** No token of the fixed block is a heap flag. *)
Lemma common_args_no_heap_flag (value t : string) :
  In t (common_args mc_path version_name ++ ["-cp"]) ->
  t <> "-Xmx" ++ value ++ "M" /\ t <> "-Xms" ++ value ++ "M".
Proof.
  unfold common_args. cbn [app In]. intro H.
  repeat (destruct H as [<-|H];
          [split; intro E; cbn in E; discriminate E|]).
  destruct H.
Qed.

End CommandFacts.

(** C7, as the code behaves.  With [use_system_memory] true the command
    is the interpreter followed at once by the fixed block, whatever the
    memory value, and no token of the fixed block is a heap flag; with
    [use_system_memory] false or absent and a memory value that is an
    integer other than zero, the interpreter is followed by
    [-Xmx<value>M] and then [-Xms<value>M] with the same value; with a
    memory value that is null or zero no heap flag is added. *)
Theorem memory_flags {F : PathFlavour} (mc_path : Path)
  (version_name main_class libraries' game_args : string)
  (options : Options) :
  (use_system_memory options = Some true ->
   build_java_command mc_path version_name main_class libraries' game_args
     options
   = java_path options
     :: common_args mc_path version_name
     ++ "-cp" :: libraries' :: main_class :: PyStr.split " " game_args
   /\ forall value t,
        In t (common_args mc_path version_name ++ ["-cp"]) ->
        t <> "-Xmx" ++ value ++ "M" /\ t <> "-Xms" ++ value ++ "M")
  /\ (forall n,
         use_system_memory options <> Some true ->
         memory options = Some (MemInt n) ->
         n <> 0%Z ->
         build_java_command mc_path version_name main_class libraries'
           game_args options
         = java_path options
           :: ("-Xmx" ++ PyStr.of_int n ++ "M")
           :: ("-Xms" ++ PyStr.of_int n ++ "M")
           :: common_args mc_path version_name
           ++ "-cp" :: libraries' :: main_class :: PyStr.split " " game_args)
  /\ (forall m,
         memory options = Some m ->
         m = MemNone \/ m = MemInt 0 ->
         build_java_command mc_path version_name main_class libraries'
           game_args options
         = java_path options
           :: common_args mc_path version_name
           ++ "-cp" :: libraries' :: main_class :: PyStr.split " " game_args).
Proof.
  split; [|split].
  - intro Hu. split.
    + rewrite build_java_command_shape. unfold memory_args. now rewrite Hu.
    + intros value t. apply common_args_no_heap_flag.
  - intros n Hu Hm Hn.
    rewrite build_java_command_shape. unfold memory_args. rewrite Hm.
    assert (negb match use_system_memory options with
                 | Some b => b | None => false end = true) as ->.
    { destruct (use_system_memory options) as [[]|]; try reflexivity.
      now destruct Hu. }
    cbn [memory_truthy andb memory_str].
    apply Z.eqb_neq in Hn. rewrite Hn. reflexivity.
  - intros m Hm Hfalsy.
    rewrite build_java_command_shape. unfold memory_args. rewrite Hm.
    assert (memory_truthy m = false) as ->
      by (destruct Hfalsy as [->| ->]; reflexivity).
    now rewrite andb_false_r.
Qed.

Lemma memory_flags_witness :
  build_java_command Sample.root "1.20.1" "Main" "cp" "--demo"
    {| java_path := "java"; memory := Some (MemInt 4096);
       use_system_memory := Some true |}
  = "java" :: common_args Sample.root "1.20.1" ++ ["-cp"; "cp"; "Main"; "--demo"]
  /\ build_java_command Sample.root "1.20.1" "Main" "cp" "--demo"
       Sample.default_options
     = "java" :: "-Xmx4096M" :: "-Xms4096M"
       :: common_args Sample.root "1.20.1" ++ ["-cp"; "cp"; "Main"; "--demo"]
  /\ build_java_command Sample.root "1.20.1" "Main" "cp" "--demo"
       {| java_path := "java"; memory := Some MemNone;
          use_system_memory := Some false |}
     = "java"
       :: common_args Sample.root "1.20.1" ++ ["-cp"; "cp"; "Main"; "--demo"].
Proof.
  split; [|split].
  - apply (memory_flags Sample.root "1.20.1" "Main" "cp" "--demo"
             {| java_path := "java"; memory := Some (MemInt 4096);
                use_system_memory := Some true |}).
    reflexivity.
  - apply (proj1 (proj2 (memory_flags Sample.root "1.20.1" "Main" "cp"
                           "--demo" Sample.default_options)) 4096%Z).
    + discriminate.
    + reflexivity.
    + lia.
  - apply (proj2 (proj2 (memory_flags Sample.root "1.20.1" "Main" "cp"
                           "--demo"
                           {| java_path := "java"; memory := Some MemNone;
                              use_system_memory := Some false |})) MemNone).
    + reflexivity.
    + left. reflexivity.
Defined.

(** C7, as stated, fails: with [use_system_memory] false and the memory
    value 0 present, neither [-Xmx0M] nor [-Xms0M] is in the command. *)
Lemma zero_memory_has_no_flags :
  let command :=
    build_java_command Sample.root "1.20.1" "Main" "cp" "--demo"
      {| java_path := "java"; memory := Some (MemInt 0);
         use_system_memory := Some false |} in
  ~ In "-Xmx0M" command /\ ~ In "-Xms0M" command.
Proof.
  split; intro H; vm_compute in H;
    repeat (destruct H as [H|H]; [discriminate H|]); exact H.
Qed.

(** C9. With the empty string as game arguments the command ends with
    the entry-point class followed by one empty token: the split of the
    empty string is the list of the empty string. *)
Theorem empty_game_args_token {F : PathFlavour} (mc_path : Path)
  (version_name main_class libraries' : string) (options : Options) :
  PyStr.split " " "" = [""]
  /\ build_java_command mc_path version_name main_class libraries' "" options
     = ((java_path options
         :: memory_args options
         ++ common_args mc_path version_name
         ++ ["-cp"; libraries'])
        ++ [main_class; ""])%list
  /\ rev (build_java_command mc_path version_name main_class libraries' ""
            options)
     = ""
       :: main_class
       :: rev (java_path options
               :: memory_args options
               ++ common_args mc_path version_name
               ++ ["-cp"; libraries']).
Proof.
  assert (H : build_java_command mc_path version_name main_class libraries'
                "" options
              = ((java_path options
                  :: memory_args options
                  ++ common_args mc_path version_name
                  ++ ["-cp"; libraries'])
                 ++ [main_class; ""])%list).
  { rewrite build_java_command_shape. cbn [PyStr.split app].
    f_equal. rewrite <- !app_assoc. reflexivity. }
  split; [reflexivity|]. split; [exact H|].
  rewrite H, rev_app_distr. reflexivity.
Qed.

(** C10. Options without the memory key, with [use_system_memory] false
    or absent, give the command of the memory value 4096: the
    interpreter is followed by [-Xmx4096M] and then [-Xms4096M]. *)
Theorem default_memory {F : PathFlavour} (mc_path : Path)
  (version_name main_class libraries' game_args : string)
  (options : Options) :
  memory options = None ->
  use_system_memory options <> Some true ->
  build_java_command mc_path version_name main_class libraries' game_args
    options
  = java_path options
    :: "-Xmx4096M" :: "-Xms4096M"
    :: common_args mc_path version_name
    ++ "-cp" :: libraries' :: main_class :: PyStr.split " " game_args
  /\ build_java_command mc_path version_name main_class libraries' game_args
       options
     = build_java_command mc_path version_name main_class libraries'
         game_args
         {| java_path := java_path options;
            memory := Some (MemInt 4096);
            use_system_memory := use_system_memory options |}.
Proof.
  intros Hm Hu.
  assert (Hargs : forall o, memory_args o = memory_args options ->
            build_java_command mc_path version_name main_class libraries'
              game_args o
            = java_path o
              :: memory_args options
              ++ common_args mc_path version_name
              ++ "-cp" :: libraries' :: main_class
                 :: PyStr.split " " game_args).
  { intros o Ho. now rewrite build_java_command_shape, Ho. }
  assert (Hflags : memory_args options = ["-Xmx4096M"; "-Xms4096M"]).
  { unfold memory_args. rewrite Hm.
    destruct (use_system_memory options) as [[]|]; try reflexivity.
    now destruct Hu. }
  split.
  - rewrite (Hargs options eq_refl), Hflags. reflexivity.
  - rewrite (Hargs options eq_refl).
    rewrite (Hargs {| java_path := java_path options;
                      memory := Some (MemInt 4096);
                      use_system_memory := use_system_memory options |});
      [reflexivity|].
    unfold memory_args. rewrite Hm. reflexivity.
Qed.

Lemma default_memory_witness :
  build_java_command Sample.root "1.20.1" "Main" "cp" "--demo"
    {| java_path := "java"; memory := None; use_system_memory := None |}
  = "java" :: "-Xmx4096M" :: "-Xms4096M"
    :: common_args Sample.root "1.20.1" ++ ["-cp"; "cp"; "Main"; "--demo"].
Proof.
  apply (default_memory Sample.root "1.20.1" "Main" "cp" "--demo"
           {| java_path := "java"; memory := None;
              use_system_memory := None |}).
  - reflexivity.
  - discriminate.
Defined.

(** * Further properties *)

(** ** Rule evaluator: composition and rules without effect *)

Section MoreRuleFacts.

Variable machine : string.

Lemma imposes_passes_through (r : Rule) :
  imposes machine r = negb (passes_through r).
Proof.
  unfold imposes, rule_verdict, passes_through.
  destruct (String.eqb (action r) "allow").
  - destruct (os r) as [o|]; [|reflexivity].
    destruct (String.eqb (os_name o) "windows"); [|reflexivity].
    destruct (os_arch o); reflexivity.
  - destruct (String.eqb (action r) "disallow"); [|reflexivity].
    destruct (os r) as [o|]; [|reflexivity].
    destruct (String.eqb (os_name o) "windows"); reflexivity.
Qed.

Lemma rule_step_passes_through (b : bool) (r : Rule) :
  passes_through r = true -> rule_step machine b r = b.
Proof.
  intro H. rewrite rule_step_verdict.
  pose proof (imposes_passes_through r) as Hi. rewrite H in Hi.
  unfold imposes in Hi. now destruct (rule_verdict machine r).
Qed.

Lemma fold_rule_step_filter (rs : list Rule) (b : bool) :
  fold_left (rule_step machine)
            (filter (fun r => negb (passes_through r)) rs) b
  = fold_left (rule_step machine) rs b.
Proof.
  revert b. induction rs as [|r rs IH]; intro b; [reflexivity|].
  cbn [filter fold_left].
  destruct (passes_through r) eqn:Hr; cbn [negb fold_left].
  - now rewrite rule_step_passes_through.
  - apply IH.
Qed.

Lemma check_with_rules (lib : LibraryEntry) (rs : list Rule) :
  check_library_rules machine (with_rules lib rs)
  = fold_left (rule_step machine) rs true.
Proof. now rewrite check_library_rules_fold. Qed.

End MoreRuleFacts.

(** X1. The decision for two rule lists put one after the other is the
    decision of the second list when one of its rules imposes a verdict,
    and the decision of the first list otherwise. *)
Theorem check_library_rules_app (machine : string) (lib : LibraryEntry)
  (rs1 rs2 : list Rule) :
  check_library_rules machine (with_rules lib (rs1 ++ rs2)%list)
  = if existsb (fun r => negb (passes_through r)) rs2
    then check_library_rules machine (with_rules lib rs2)
    else check_library_rules machine (with_rules lib rs1).
Proof.
  rewrite !check_with_rules, fold_left_app.
  rewrite (fold_rule_step_last machine rs2 true).
  rewrite fold_rule_step_last.
  assert (E : existsb (imposes machine) rs2
              = existsb (fun r => negb (passes_through r)) rs2).
  { induction rs2 as [|r rs2 IH]; [reflexivity|].
    cbn [existsb]. now rewrite IH, imposes_passes_through. }
  rewrite E. clear E. now destruct (existsb _ rs2).
Qed.

(** X2. Rules that pass the decision through (an action other than
    allow and disallow, or a disallow for another system) can be
    removed from any place of the rule list without changing the
    decision. *)
Theorem check_library_rules_drop_pass_through (machine : string)
  (lib : LibraryEntry) (rs : list Rule) :
  check_library_rules machine
    (with_rules lib (filter (fun r => negb (passes_through r)) rs))
  = check_library_rules machine (with_rules lib rs).
Proof. rewrite !check_with_rules. apply fold_rule_step_filter. Qed.

(** X3. An allow rule that names another system than windows, as the
    last rule, excludes the entry whatever the rules before it decide. *)
Theorem allow_other_os_excludes (machine : string) (lib : LibraryEntry)
  (rs : list Rule) (r : Rule) (o : OsConstraint) :
  action r = "allow" ->
  os r = Some o ->
  os_name o <> "windows" ->
  check_library_rules machine (with_rules lib (rs ++ [r])%list) = false.
Proof.
  intros Ha Ho Hn.
  rewrite check_with_rules, fold_left_app. cbn [fold_left].
  unfold rule_step. rewrite Ha, Ho. cbn [String.eqb].
  apply String.eqb_neq in Hn. rewrite Hn.
  destruct (String.eqb "allow" "allow") eqn:E; [reflexivity|discriminate E].
Qed.

Lemma allow_other_os_excludes_witness :
  check_library_rules "AMD64"
    (with_rules Sample.foo
       ([Sample.allow_all]
        ++ [{| action := "allow";
               os := Some {| os_name := "osx"; os_arch := None |} |}])%list)
  = false.
Proof.
  apply (allow_other_os_excludes "AMD64" Sample.foo [Sample.allow_all]
           {| action := "allow";
              os := Some {| os_name := "osx"; os_arch := None |} |}
           {| os_name := "osx"; os_arch := None |}).
  - reflexivity.
  - reflexivity.
  - discriminate.
Defined.

(** X4. An allow rule for windows with an architecture, as the last
    rule, includes the entry exactly when the architecture is the text
    [x86_64] on a machine whose name ends with 64, and the text [x86]
    on any other machine; no other architecture text ever matches. *)
Theorem allow_windows_arch (machine : string) (lib : LibraryEntry)
  (rs : list Rule) (r : Rule) (o : OsConstraint) (a : string) :
  action r = "allow" ->
  os r = Some o ->
  os_name o = "windows" ->
  os_arch o = Some a ->
  check_library_rules machine (with_rules lib (rs ++ [r])%list)
  = (if PyStr.endswith machine "64"
     then String.eqb a "x86_64" else String.eqb a "x86")
  /\ (a <> "x86_64" -> a <> "x86" ->
      check_library_rules machine (with_rules lib (rs ++ [r])%list) = false).
Proof.
  intros Ha Ho Hn Harch.
  assert (H : check_library_rules machine (with_rules lib (rs ++ [r])%list)
              = String.eqb a (rules_os_arch machine)).
  { rewrite check_with_rules, fold_left_app. cbn [fold_left].
    unfold rule_step. rewrite Ha, Ho, Hn, Harch. reflexivity. }
  rewrite H. unfold rules_os_arch. split.
  - destruct (PyStr.endswith machine "64"); reflexivity.
  - intros H1 H2. apply String.eqb_neq in H1, H2.
    destruct (PyStr.endswith machine "64"); assumption.
Qed.

Lemma allow_windows_arch_witness :
  check_library_rules "AMD64"
    (with_rules Sample.foo
       ([Sample.allow_all]
        ++ [{| action := "allow";
               os := Some {| os_name := "windows";
                             os_arch := Some "amd64" |} |}])%list)
  = false.
Proof.
  apply (allow_windows_arch "AMD64" Sample.foo [Sample.allow_all]
           {| action := "allow";
              os := Some {| os_name := "windows";
                            os_arch := Some "amd64" |} |}
           {| os_name := "windows"; os_arch := Some "amd64" |} "amd64");
    try reflexivity; discriminate.
Defined.

(** ** Path resolver: what it looks at and what it returns *)

Lemma string_app_nil_r (s : string) : s ++ "" = s.
Proof. induction s as [|a s IH]; cbn; [reflexivity | now rewrite IH]. Qed.

(** Replacing a placeholder in a text without a dollar sign changes
    nothing. *)
Lemma replace_dollar_free (m new s : string) :
  dollar_free s = true -> PyStr.replace s (placeholder m) new = s.
Proof.
  intro Hs. unfold placeholder, PyStr.replace. cbn [append].
  rewrite <- (string_app_nil_r s) at 1.
  rewrite replace_scan_dollar_free by assumption.
  cbn [PyStr.replace_scan]. apply string_app_nil_r.
Qed.

(** Replacing a placeholder where it stands between two texts without
    a dollar sign puts the new text in its place. *)
Lemma replace_placeholder_hit (m new a b : string) :
  plain_name m = true ->
  dollar_free a = true -> dollar_free b = true ->
  PyStr.replace (a ++ placeholder m ++ b) (placeholder m) new
  = a ++ new ++ b.
Proof.
  intros Hm Ha Hb.
  pose proof (replace_dollar_free m new a Ha) as Ea.
  pose proof (replace_dollar_free m new b Hb) as Eb.
  pose proof (replace_head_match "$" (String "{" (m ++ "}")) new b) as Eh.
  unfold placeholder, PyStr.replace in *. cbn [append] in *.
  rewrite (replace_scan_app _ new (plain_name_dollar_free m Hm)) by lia.
  now rewrite Ea, Eh, Eb.
Qed.

Section MoreResolverFacts.

Context {F : PathFlavour}.
Variable machine : string.
Variable file_exists : string -> py bool.
Variable mc_path : Path.

Local Open Scope path_scope.

Local Abbreviation get_path := (get_library_path machine file_exists mc_path).
Local Abbreviation get_run :=
  (get_library_path_run machine file_exists mc_path).
Local Abbreviation step := (libraries_step machine file_exists mc_path).

Lemma resolve_run_exists (lib : LibraryEntry) (g a v p : string) :
  snd (resolve_run machine file_exists mc_path lib g a v) = Some p ->
  file_exists p = Ok true.
Proof.
  unfold resolve_run, probe.
  destruct (native_classifier lib) as [c|].
  - destruct (file_exists (native_jar machine mc_path g a v c)) as [[]|] eqn:E;
      cbn [snd]; [intro H; injection H as <-; exact E | | discriminate].
    destruct (file_exists (regular_jar mc_path g a v)) as [[]|] eqn:E';
      cbn [snd]; intro H; try discriminate H. injection H as <-. exact E'.
  - destruct (file_exists (regular_jar mc_path g a v)) as [[]|] eqn:E';
      cbn [snd]; intro H; try discriminate H. injection H as <-. exact E'.
Qed.

Lemma get_library_path_exists (lib : LibraryEntry) (p : string) :
  get_path lib = Some p -> file_exists p = Ok true.
Proof.
  unfold get_library_path.
  destruct (PyStr.split ":" (name lib)) as [|g [|a [|v rest]]] eqn:Hs;
    try (rewrite get_library_path_run_short by (rewrite Hs; cbn; lia);
         discriminate).
  rewrite (get_library_path_run_parts machine file_exists mc_path lib Hs).
  apply resolve_run_exists.
Qed.

Lemma libraries_step_from_nil (result : list string) (lib : LibraryEntry) :
  step result lib = (result ++ step [] lib)%list.
Proof.
  unfold libraries_step.
  destruct (negb (check_library_rules machine lib));
    [now rewrite app_nil_r|].
  destruct (get_path lib) as [p|]; [|now rewrite app_nil_r].
  destruct (path_truthy (Some p)); [reflexivity | now rewrite app_nil_r].
Qed.

Lemma fold_libraries_step_from_nil (libs : list LibraryEntry)
  (result : list string) :
  fold_left step libs result = (result ++ fold_left step libs [])%list.
Proof.
  revert result. induction libs as [|lib libs IH]; intro result.
  - cbn. now rewrite app_nil_r.
  - cbn [fold_left]. rewrite IH, (IH (step [] lib)).
    now rewrite libraries_step_from_nil, app_assoc.
Qed.

Lemma libraries_step_nil_exists (lib : LibraryEntry) :
  Forall (fun p => file_exists p = Ok true) (step [] lib).
Proof.
  unfold libraries_step.
  destruct (negb (check_library_rules machine lib)); [constructor|].
  destruct (get_path lib) as [p|] eqn:Hp; [|constructor].
  destruct (path_truthy (Some p)); [|constructor].
  constructor; [|constructor]. exact (get_library_path_exists lib p Hp).
Qed.

Lemma fold_libraries_step_exists (libs : list LibraryEntry) :
  Forall (fun p => file_exists p = Ok true) (fold_left step libs []).
Proof.
  induction libs as [|lib libs IH]; [constructor|].
  cbn [fold_left]. rewrite fold_libraries_step_from_nil.
  apply Forall_app. split; [apply libraries_step_nil_exists | exact IH].
Qed.

Lemma fold_libraries_step_filter (libs : list LibraryEntry)
  (result : list string) :
  fold_left step (filter (check_library_rules machine) libs) result
  = fold_left step libs result.
Proof.
  revert result. induction libs as [|lib libs IH]; intro result;
    [reflexivity|].
  cbn [filter fold_left].
  destruct (check_library_rules machine lib) eqn:Hc; cbn [fold_left].
  - apply IH.
  - rewrite IH. f_equal. unfold libraries_step. now rewrite Hc.
Qed.

Lemma classpath_entries_with (version_json : VersionDescriptor)
  (libs : list LibraryEntry) :
  classpath_entries machine file_exists mc_path
    (with_libraries version_json libs)
  = version_jar mc_path version_json :: fold_left step libs [].
Proof.
  unfold classpath_entries, with_libraries, version_jar. cbn [libraries id].
  now rewrite fold_libraries_step_from_nil.
Qed.

End MoreResolverFacts.

(** X5. [get_library_path] never returns a path that does not exist:
    whatever the entry, a returned path satisfies the existence check. *)
Theorem get_library_path_sound {F : PathFlavour} (machine : string)
  (file_exists : string -> py bool) (mc_path : Path) (lib : LibraryEntry)
  (p : string) :
  get_library_path machine file_exists mc_path lib = Some p ->
  file_exists p = Ok true.
Proof. apply get_library_path_exists. Qed.

Lemma get_library_path_sound_witness :
  Sample.fs Sample.files
    ".minecraft/libraries/org/example/foo/1.0/foo-1.0.jar" = Ok true.
Proof.
  apply (get_library_path_sound "AMD64" (Sample.fs Sample.files)
           Sample.root Sample.foo).
  reflexivity.
Defined.

(** X6. [get_library_path] looks only at the coordinate and at the
    classifier under the key [windows]: two entries with the same name
    and the same windows classifier give the same result and print the
    same lines, whatever their rules and their classifiers for other
    platforms are; natives without the key [windows] are as no natives. *)
Theorem get_library_path_reads (F : PathFlavour) (machine : string)
  (file_exists : string -> py bool) (mc_path : Path) (lib lib' : LibraryEntry) :
  name lib = name lib' ->
  native_classifier lib = native_classifier lib' ->
  get_library_path_run machine file_exists mc_path lib
  = get_library_path_run machine file_exists mc_path lib'.
Proof.
  intros Hn Hc.
  destruct (PyStr.split ":" (name lib)) as [|g [|a [|v rest]]] eqn:Hs.
  1-3: rewrite !get_library_path_run_short;
       [reflexivity | rewrite <- Hn, Hs; cbn; lia | rewrite Hs; cbn; lia].
  rewrite (get_library_path_run_parts machine file_exists mc_path lib Hs).
  rewrite Hn in Hs.
  rewrite (get_library_path_run_parts machine file_exists mc_path lib' Hs).
  unfold resolve_run. now rewrite Hc.
Qed.

Lemma get_library_path_reads_witness :
  get_library_path_run "AMD64" (Sample.fs Sample.files) Sample.root
    Sample.foo
  = get_library_path_run "AMD64" (Sample.fs Sample.files) Sample.root
      {| name := "org.example:foo:1.0";
         rules := Some [Sample.disallow_windows];
         natives := Some [("linux", "natives-linux")] |}.
Proof.
  apply (get_library_path_reads Posix "AMD64" (Sample.fs Sample.files)
           Sample.root Sample.foo
           {| name := "org.example:foo:1.0";
              rules := Some [Sample.disallow_windows];
              natives := Some [("linux", "natives-linux")] |});
    reflexivity.
Defined.

(** X7. A windows classifier of the form [pre${arch}post], with no
    other dollar sign, names the jar
    [<artifact>-<version>-pre64post.jar] on a machine whose name ends
    with 64 and [...-pre32post.jar] on any other machine; when that file
    exists it is the result. *)
Theorem native_classifier_arch {F : PathFlavour} (machine : string)
  (file_exists : string -> py bool) (mc_path : Path) (lib : LibraryEntry)
  (g a v pre post : string) (rest : list string) :
  PyStr.split ":" (name lib) = g :: a :: v :: rest ->
  native_classifier lib = Some (pre ++ "${arch}" ++ post) ->
  dollar_free pre = true ->
  dollar_free post = true ->
  file_exists
    (path_str (library_base mc_path g a v
               / (a ++ "-" ++ v ++ "-" ++ pre
                  ++ (if PyStr.endswith machine "64" then "64" else "32")
                  ++ post ++ ".jar"))%path) = Ok true ->
  get_library_path machine file_exists mc_path lib
  = Some (path_str (library_base mc_path g a v
                    / (a ++ "-" ++ v ++ "-" ++ pre
                       ++ (if PyStr.endswith machine "64" then "64" else "32")
                       ++ post ++ ".jar"))%path).
Proof.
  intros Hs Hc Hpre Hpost He.
  unfold get_library_path.
  rewrite (get_library_path_run_parts machine file_exists mc_path lib Hs).
  unfold resolve_run, probe. rewrite Hc. unfold native_jar.
  change "${arch}" with (placeholder "arch").
  rewrite replace_placeholder_hit by (assumption || reflexivity).
  unfold natives_arch. rewrite !append_assoc. now rewrite He.
Qed.

Lemma native_classifier_arch_witness :
  get_library_path "AMD64" (Sample.fs Sample.files) Sample.root Sample.lwjgl
  = Some ".minecraft/libraries/org/lwjgl/lwjgl-platform/2.9.4/lwjgl-platform-2.9.4-natives-windows-64.jar".
Proof.
  apply (native_classifier_arch "AMD64" (Sample.fs Sample.files) Sample.root
           Sample.lwjgl "org.lwjgl" "lwjgl-platform" "2.9.4"
           "natives-windows-" "" []); reflexivity.
Defined.

(** ** Classpath builder: existence, filtering and composition *)

(** X8. Every element of the classpath after the first one passed the
    existence check. *)
Theorem classpath_tail_exists {F : PathFlavour} (machine : string)
  (file_exists : string -> py bool) (mc_path : Path)
  (version_json : VersionDescriptor) :
  Forall (fun p => file_exists p = Ok true)
         (tl (classpath_entries machine file_exists mc_path version_json)).
Proof.
  unfold classpath_entries.
  destruct (libraries version_json) as [libs|]; [|constructor].
  rewrite fold_libraries_step_from_nil. cbn [app tl].
  apply fold_libraries_step_exists.
Qed.

(** X9. When no file exists the classpath is the version's own jar
    alone, whatever the descriptor lists. *)
Theorem classpath_without_files {F : PathFlavour} (machine : string)
  (mc_path : Path) (version_json : VersionDescriptor) :
  build_libraries_path machine (fun _ => Ok false) mc_path version_json
  = version_jar mc_path version_json.
Proof.
  unfold build_libraries_path.
  pose proof (fold_libraries_step_exists machine (fun _ => Ok false) mc_path
                (libraries_of version_json)) as Hall.
  unfold classpath_entries, libraries_of in *.
  destruct (libraries version_json) as [libs|]; [|reflexivity].
  rewrite fold_libraries_step_from_nil.
  destruct (fold_left _ libs []) as [|p l]; [reflexivity|].
  inversion Hall as [|? ? Hp _]. discriminate Hp.
Qed.

(** X10. Entries that the rule evaluator rejects can be removed from
    the descriptor without changing the classpath. *)
Theorem classpath_drop_rejected {F : PathFlavour} (machine : string)
  (file_exists : string -> py bool) (mc_path : Path)
  (version_json : VersionDescriptor) (libs : list LibraryEntry) :
  build_libraries_path machine file_exists mc_path
    (with_libraries version_json (filter (check_library_rules machine) libs))
  = build_libraries_path machine file_exists mc_path
      (with_libraries version_json libs).
Proof.
  unfold build_libraries_path. rewrite !classpath_entries_with.
  now rewrite fold_libraries_step_filter.
Qed.

(** X11. The classpath entries of two lists of libraries put one after
    the other are the entries of the first list followed by the entries
    of the second list without its leading version jar. *)
Theorem classpath_entries_app {F : PathFlavour} (machine : string)
  (file_exists : string -> py bool) (mc_path : Path)
  (version_json : VersionDescriptor) (l1 l2 : list LibraryEntry) :
  classpath_entries machine file_exists mc_path
    (with_libraries version_json (l1 ++ l2)%list)
  = (classpath_entries machine file_exists mc_path
       (with_libraries version_json l1)
     ++ tl (classpath_entries machine file_exists mc_path
              (with_libraries version_json l2)))%list.
Proof.
  rewrite !classpath_entries_with. cbn [tl app]. f_equal.
  rewrite fold_left_app. apply fold_libraries_step_from_nil.
Qed.

(** ** Argument templater: tokens, plain templates, order of the table *)

Lemma dollar_free_app (s t : string) :
  dollar_free (s ++ t) = dollar_free s && dollar_free t.
Proof.
  induction s as [|a s IH]; [reflexivity|].
  cbn [append dollar_free]. now rewrite IH, andb_assoc.
Qed.

Lemma substitute_dollar_free {n : string} {table : list (string * string)}
  {s : string} :
  avoids n table -> dollar_free s = true -> substitute table s = s.
Proof.
  intros Htable Hs.
  induction Htable as [|[k v] table (m & Hk & _ & _) _ IH]; [reflexivity|].
  cbn [fst] in Hk. subst k. unfold substitute in *. cbn [fold_left fst snd].
  now rewrite replace_dollar_free.
Qed.

(** In a table of distinct placeholders, the entry of a placeholder
    that stands between two texts without a dollar sign puts its value,
    when this has no dollar sign either, in the place of the
    placeholder. *)
Lemma substitute_hit {n : string} {table : list (string * string)}
  {k v a b : string} :
  avoids n table -> NoDup (map fst table) -> In (k, v) table ->
  dollar_free a = true -> dollar_free b = true -> dollar_free v = true ->
  substitute table (a ++ k ++ b) = a ++ v ++ b.
Proof.
  intros Htable Hnd Hin Ha Hb Hv.
  induction Htable as [|[k0 v0] table (m0 & Hk0 & Hm0 & Hn0) Htable IH];
    [destruct Hin|].
  cbn [fst] in Hk0. subst k0. cbn [map fst] in Hnd.
  inversion Hnd as [|? ? Hnotin Hnd']; subst.
  unfold substitute in *. cbn [fold_left fst snd].
  destruct Hin as [Heq|Hin].
  - injection Heq as <- <-.
    rewrite replace_placeholder_hit by assumption.
    apply (substitute_dollar_free Htable).
    rewrite !dollar_free_app. now rewrite Ha, Hv, Hb.
  - pose proof Hin as Hin'.
    eapply Forall_forall in Hin'; [|exact Htable].
    destruct Hin' as (m & Hk & Hm & _). cbn [fst] in Hk. subst k.
    assert (Hne : m0 <> m).
    { intros ->. apply Hnotin.
      change (placeholder m) with (fst (placeholder m, v)).
      now apply in_map. }
    rewrite replace_placeholder_frame by assumption.
    rewrite !replace_dollar_free by assumption.
    now apply IH.
Qed.

Lemma replacements_keys_distinct {F : PathFlavour} (mc_path : Path)
  (version_name player_name : string) (version_json : VersionDescriptor) :
  NoDup (map fst (replacements mc_path version_name player_name
                    version_json)).
Proof.
  unfold replacements. cbn [map fst].
  repeat (apply NoDup_cons;
          [cbn [In]; intro H;
           repeat (destruct H as [H|H]; [discriminate H|]); exact H|]).
  apply NoDup_nil.
Qed.

Lemma replacements_plain {F : PathFlavour} (mc_path : Path)
  (version_name player_name : string) (version_json : VersionDescriptor) :
  avoids "" (replacements mc_path version_name player_name version_json).
Proof. apply replacements_avoid. cbn. intuition discriminate. Qed.

Lemma fold_game_args (g : list GameArg) (args : list string) :
  fold_left (fun args arg => match arg with
                             | ArgStr s => (args ++ [s])%list
                             | ArgOther => args
                             end) g args
  = (args ++ flat_map (fun arg => match arg with
                                  | ArgStr s => [s]
                                  | ArgOther => []
                                  end) g)%list.
Proof.
  revert args. induction g as [|[s|] g IH]; intro args; cbn [fold_left flat_map].
  - now rewrite app_nil_r.
  - rewrite IH, <- app_assoc. reflexivity.
  - apply IH.
Qed.

Lemma game_tokens_split (version_json : VersionDescriptor) :
  game_tokens version_json
  = (legacy_tokens version_json ++ modern_strings version_json)%list.
Proof.
  unfold game_tokens, legacy_tokens, modern_strings.
  destruct (arguments version_json) as [a|];
    [destruct (game a) as [g|]|];
    rewrite ?fold_game_args;
    destruct (minecraftArguments version_json);
    cbn [app]; rewrite ?app_nil_r; reflexivity.
Qed.

Lemma lstrip_rstrip (s : string) :
  PyStr.lstrip s = s -> PyStr.lstrip (PyStr.rstrip s) = PyStr.rstrip s.
Proof.
  destruct s as [|a s]; [reflexivity|].
  cbn [PyStr.lstrip]. destruct (PyStr.isspace a) eqn:Ha.
  - intro H. exfalso.
    assert (Hl : forall t, (String.length (PyStr.lstrip t)
                            <= String.length t)%nat).
    { induction t as [|c t IHt]; cbn; [lia|].
      destruct (PyStr.isspace c); cbn; lia. }
    pose proof (Hl s) as Hs. rewrite H in Hs. cbn in Hs. lia.
  - intros _. rewrite rstrip_cons_nonspace by assumption.
    cbn [PyStr.lstrip]. now rewrite Ha.
Qed.

Lemma lstrip_idem (s : string) : PyStr.lstrip (PyStr.lstrip s) = PyStr.lstrip s.
Proof.
  induction s as [|a s IH]; [reflexivity|].
  cbn [PyStr.lstrip]. destruct (PyStr.isspace a) eqn:Ha; [exact IH|].
  cbn [PyStr.lstrip]. now rewrite Ha.
Qed.

Lemma rstrip_cons (a : ascii) (s : string) :
  PyStr.rstrip (String a s)
  = match PyStr.rstrip s with
    | EmptyString =>
        if PyStr.isspace a then EmptyString else String a EmptyString
    | r => String a r
    end.
Proof. reflexivity. Qed.

Lemma rstrip_idem (s : string) : PyStr.rstrip (PyStr.rstrip s) = PyStr.rstrip s.
Proof.
  induction s as [|a s IH]; [reflexivity|].
  rewrite rstrip_cons.
  destruct (PyStr.rstrip s) as [|c r] eqn:Hr.
  - destruct (PyStr.isspace a) eqn:Ha; [reflexivity|].
    rewrite rstrip_cons. cbn [PyStr.rstrip]. now rewrite Ha.
  - rewrite (rstrip_cons a (String c r)). now rewrite IH.
Qed.

(** X12. The template is made of the tokens of the legacy string
    followed by the string literals of [arguments.game]: when a
    descriptor carries both, both are used, the legacy tokens first, and
    the elements of [arguments.game] that are not strings are dropped. *)
Theorem game_arguments_sources {F : PathFlavour} (mc_path : Path)
  (version_name player_name : string) (version_json : VersionDescriptor) :
  game_tokens version_json
  = (legacy_tokens version_json ++ modern_strings version_json)%list
  /\ build_game_arguments mc_path version_name player_name version_json
     = PyStr.strip
         (substitute
            (replacements mc_path version_name player_name version_json)
            (PyStr.join " "
               (legacy_tokens version_json ++ modern_strings version_json))).
Proof.
  split; [apply game_tokens_split|].
  unfold build_game_arguments. now rewrite game_tokens_split.
Qed.

(** X13. A descriptor without a legacy template and without a string
    literal in [arguments.game] (the key absent, or only conditional
    elements) gives the empty string. *)
Theorem game_arguments_absent {F : PathFlavour} (mc_path : Path)
  (version_name player_name : string) (version_json : VersionDescriptor) :
  minecraftArguments version_json = None ->
  modern_strings version_json = [] ->
  build_game_arguments mc_path version_name player_name version_json = "".
Proof.
  intros Hl Hm. unfold build_game_arguments.
  rewrite game_tokens_split. unfold legacy_tokens. rewrite Hl, Hm.
  cbn [app PyStr.join String.concat].
  rewrite (substitute_dollar_free
             (replacements_plain mc_path version_name player_name
                version_json)) by reflexivity.
  reflexivity.
Qed.

Lemma game_arguments_absent_witness :
  build_game_arguments Sample.root "1.20.1" "Alice"
    {| id := "1.20.1"; mainClass := "Main"; assets := None;
       libraries := None; minecraftArguments := None;
       arguments := Some {| game := Some [ArgOther; ArgOther] |} |}
  = "".
Proof.
  apply (game_arguments_absent Sample.root "1.20.1" "Alice"
           {| id := "1.20.1"; mainClass := "Main"; assets := None;
              libraries := None; minecraftArguments := None;
              arguments := Some {| game := Some [ArgOther; ArgOther] |} |});
    reflexivity.
Defined.

(** X14. A legacy template without a dollar sign is returned as it is,
    trimmed: nothing is substituted, and the split into tokens and the
    join with spaces give the template back, runs of spaces included. *)
Theorem game_arguments_plain_template {F : PathFlavour} (mc_path : Path)
  (version_name player_name : string) (version_json : VersionDescriptor)
  (template : string) :
  minecraftArguments version_json = Some template ->
  modern_strings version_json = [] ->
  dollar_free template = true ->
  build_game_arguments mc_path version_name player_name version_json
  = PyStr.strip template.
Proof.
  intros Hl Hm Hd. unfold build_game_arguments.
  rewrite game_tokens_split. unfold legacy_tokens. rewrite Hl, Hm, app_nil_r.
  rewrite join_split.
  now rewrite (substitute_dollar_free
                 (replacements_plain mc_path version_name player_name
                    version_json)).
Qed.

Lemma game_arguments_plain_template_witness :
  build_game_arguments Sample.root "1.20.1" "Alice"
    {| id := "1.20.1"; mainClass := "Main"; assets := None;
       libraries := None;
       minecraftArguments := Some " --demo  --fullscreen ";
       arguments := None |}
  = "--demo  --fullscreen".
Proof.
  apply (game_arguments_plain_template Sample.root "1.20.1" "Alice"
           {| id := "1.20.1"; mainClass := "Main"; assets := None;
              libraries := None;
              minecraftArguments := Some " --demo  --fullscreen ";
              arguments := None |} " --demo  --fullscreen ");
    reflexivity.
Defined.

(** X15. When the template is one recognised placeholder between two
    texts without a dollar sign and the value of the placeholder has no
    dollar sign either, the result is the template with the value in the
    place of the placeholder, trimmed. *)
Theorem game_arguments_one_placeholder {F : PathFlavour} (mc_path : Path)
  (version_name player_name : string) (version_json : VersionDescriptor)
  (k v a b : string) :
  In (k, v) (replacements mc_path version_name player_name version_json) ->
  PyStr.join " " (game_tokens version_json) = a ++ k ++ b ->
  dollar_free a = true -> dollar_free b = true -> dollar_free v = true ->
  build_game_arguments mc_path version_name player_name version_json
  = PyStr.strip (a ++ v ++ b).
Proof.
  intros Hin Ht Ha Hb Hv. unfold build_game_arguments. rewrite Ht.
  now rewrite (substitute_hit
                 (replacements_plain mc_path version_name player_name
                    version_json)
                 (replacements_keys_distinct mc_path version_name player_name
                    version_json) Hin).
Qed.

Lemma game_arguments_one_placeholder_witness :
  build_game_arguments Sample.root "1.20.1" "Alice"
    {| id := "1.20.1"; mainClass := "Main"; assets := None;
       libraries := None;
       minecraftArguments := Some "--username ${auth_player_name} --demo";
       arguments := None |}
  = "--username Alice --demo".
Proof.
  apply (game_arguments_one_placeholder Sample.root "1.20.1" "Alice"
           {| id := "1.20.1"; mainClass := "Main"; assets := None;
              libraries := None;
              minecraftArguments :=
                Some "--username ${auth_player_name} --demo";
              arguments := None |}
           "${auth_player_name}" "Alice" "--username " " --demo").
  - left. reflexivity.
  - reflexivity.
  - reflexivity.
  - reflexivity.
  - reflexivity.
Defined.

(** X16. The result of [build_game_arguments] has no white space at
    its ends: trimming it on the left or on the right changes nothing. *)
Theorem game_arguments_trimmed {F : PathFlavour} (mc_path : Path)
  (version_name player_name : string) (version_json : VersionDescriptor) :
  PyStr.lstrip
    (build_game_arguments mc_path version_name player_name version_json)
  = build_game_arguments mc_path version_name player_name version_json
  /\ PyStr.rstrip
       (build_game_arguments mc_path version_name player_name version_json)
     = build_game_arguments mc_path version_name player_name version_json.
Proof.
  unfold build_game_arguments, PyStr.strip. split.
  - apply lstrip_rstrip, lstrip_idem.
  - apply rstrip_idem.
Qed.

Ltac name_placeholders :=
  change "${auth_player_name}" with (placeholder "auth_player_name");
  change "${version_name}" with (placeholder "version_name");
  change "${game_directory}" with (placeholder "game_directory");
  change "${assets_root}" with (placeholder "assets_root");
  change "${assets_index_name}" with (placeholder "assets_index_name");
  change "${auth_uuid}" with (placeholder "auth_uuid");
  change "${auth_access_token}" with (placeholder "auth_access_token");
  change "${user_type}" with (placeholder "user_type");
  change "${version_type}" with (placeholder "version_type").

(** X17. The table is applied in sequence, so a value is scanned again
    by the replacements that come later, and only by those: a player
    name that is the text [${version_name}] is replaced by the version
    name, while a version name that is the text [${auth_player_name}]
    stays as it is. *)
Theorem substitution_order {F : PathFlavour} (mc_path : Path)
  (version_json : VersionDescriptor) (a b : string) :
  dollar_free a = true ->
  dollar_free b = true ->
  (forall version_name,
      PyStr.join " " (game_tokens version_json)
      = a ++ "${auth_player_name}" ++ b ->
      dollar_free version_name = true ->
      build_game_arguments mc_path version_name "${version_name}"
        version_json
      = PyStr.strip (a ++ version_name ++ b))
  /\ (forall player_name,
         PyStr.join " " (game_tokens version_json)
         = a ++ "${version_name}" ++ b ->
         build_game_arguments mc_path "${auth_player_name}" player_name
           version_json
         = PyStr.strip (a ++ "${auth_player_name}" ++ b)).
Proof.
  intros Ha Hb. split.
  - intros version_name Ht Hv.
    unfold build_game_arguments. rewrite Ht.
    unfold replacements, substitute. cbn [fold_left fst snd].
    name_placeholders.
    rewrite replace_placeholder_hit by (assumption || reflexivity).
    rewrite replace_placeholder_hit by (assumption || reflexivity).
    assert (Hd : dollar_free (a ++ version_name ++ b) = true)
      by (rewrite !dollar_free_app; now rewrite Ha, Hv, Hb).
    now rewrite !(replace_dollar_free _ _ _ Hd).
  - intros player_name Ht.
    unfold build_game_arguments. rewrite Ht.
    unfold replacements, substitute. cbn [fold_left fst snd].
    name_placeholders.
    rewrite replace_placeholder_frame by (try reflexivity; discriminate).
    rewrite !(replace_dollar_free _ _ _ Ha), !(replace_dollar_free _ _ _ Hb).
    rewrite replace_placeholder_hit by (assumption || reflexivity).
    repeat (rewrite replace_placeholder_frame
              by (try reflexivity; discriminate);
            rewrite !(replace_dollar_free _ _ _ Ha),
                    !(replace_dollar_free _ _ _ Hb)).
    reflexivity.
Qed.

Lemma substitution_order_witness :
  build_game_arguments Sample.root "1.20.1" "${version_name}"
    Sample.descriptor
  = "--username 1.20.1"
  /\ build_game_arguments Sample.root "${auth_player_name}" "Alice"
       {| id := "1.20.1"; mainClass := "Main"; assets := None;
          libraries := None;
          minecraftArguments := Some "--version ${version_name}";
          arguments := None |}
     = "--version ${auth_player_name}".
Proof.
  split.
  - apply (proj1 (substitution_order Sample.root Sample.descriptor
                    "--username " "" eq_refl eq_refl) "1.20.1");
      reflexivity.
  - apply (proj2 (substitution_order Sample.root
                    {| id := "1.20.1"; mainClass := "Main"; assets := None;
                       libraries := None;
                       minecraftArguments := Some "--version ${version_name}";
                       arguments := None |}
                    "--version " "" eq_refl eq_refl) "Alice").
    reflexivity.
Defined.

(** ** Command synthesizer: the tokens of the game arguments *)

Lemma split_length (c : ascii) (s : string) :
  List.length (PyStr.split c s) = S (count_char c s).
Proof.
  induction s as [|a s IH]; [reflexivity|].
  cbn [PyStr.split count_char].
  destruct (Ascii.eqb a c); cbn [List.length Nat.add]; [now rewrite IH|].
  destruct (PyStr.split c s) as [|h t] eqn:Hs;
    [now destruct (split_not_nil c s)|].
  exact IH.
Qed.

(** No piece of a split contains the separator. *)
Lemma split_piece_free (c : ascii) (s x : string) :
  In x (PyStr.split c s) -> has_char c x = false.
Proof.
  revert x. induction s as [|a s IH]; intros x Hin.
  - destruct Hin as [<-|[]]. reflexivity.
  - cbn [PyStr.split] in Hin. destruct (Ascii.eqb a c) eqn:Hac.
    + destruct Hin as [<-|Hin]; [reflexivity | now apply IH].
    + destruct (PyStr.split c s) as [|h t] eqn:Hs;
        [now destruct (split_not_nil c s)|].
      destruct Hin as [<-|Hin].
      * cbn [has_char]. rewrite Hac. apply IH. now left.
      * apply IH. now right.
Qed.

(** X18. The tokens that follow the entry point are the pieces of the
    game arguments between single spaces: joined with spaces they give
    the game arguments back, none of them contains a space, and there is
    one more of them than there are spaces, so that a leading, a
    trailing or a doubled space gives an empty token. *)
Theorem game_args_tokens {F : PathFlavour} (mc_path : Path)
  (version_name main_class libraries' game_args : string)
  (options : Options) :
  build_java_command mc_path version_name main_class libraries' game_args
    options
  = ((java_path options
      :: memory_args options
      ++ common_args mc_path version_name
      ++ ["-cp"; libraries'; main_class])
     ++ PyStr.split " " game_args)%list
  /\ PyStr.join " " (PyStr.split " " game_args) = game_args
  /\ Forall (fun t => has_char " " t = false) (PyStr.split " " game_args)
  /\ List.length (PyStr.split " " game_args)
     = S (count_char " " game_args).
Proof.
  split; [|split; [|split]].
  - rewrite build_java_command_shape. cbn [app]. f_equal.
    rewrite <- !app_assoc. reflexivity.
  - apply join_split.
  - apply Forall_forall. intros t. apply split_piece_free.
  - apply split_length.
Qed.

(** ** Launch orchestrator: the descriptor it reads and what it raises *)




(** ** The POSIX flavour: joining and printing *)

Lemma string_length_app (s t : string) :
  String.length (s ++ t) = (String.length s + String.length t)%nat.
Proof. induction s as [|a s IH]; cbn; [reflexivity | now rewrite IH]. Qed.

Lemma split_app_sep (c : ascii) (a b : string) :
  PyStr.split c (a ++ String c b)
  = (PyStr.split c a ++ PyStr.split c b)%list.
Proof.
  induction a as [|x a IH]; cbn [append PyStr.split].
  - now rewrite Ascii.eqb_refl.
  - rewrite IH. destruct (Ascii.eqb x c); [reflexivity|].
    destruct (PyStr.split c a) as [|h t] eqn:Hs;
      [now destruct (split_not_nil c a) | reflexivity].
Qed.

Lemma split_of_free (c : ascii) (x : string) :
  has_char c x = false -> PyStr.split c x = [x].
Proof.
  induction x as [|a x IH]; intro H; [reflexivity|].
  cbn [has_char] in H. apply orb_false_iff in H as [Ha Hx].
  cbn [PyStr.split]. now rewrite Ha, IH.
Qed.

Lemma split_join_free (c : ascii) (ps : list string) :
  ps <> [] ->
  Forall (fun x => has_char c x = false) ps ->
  PyStr.split c (PyStr.join (String c "") ps) = ps.
Proof.
  intros Hne Hall. induction Hall as [|x ps Hx Hall IH]; [now destruct Hne|].
  destruct ps as [|y ps].
  - now apply split_of_free.
  - change (PyStr.join (String c "") (x :: y :: ps))
      with (x ++ String c (PyStr.join (String c "") (y :: ps))).
    rewrite split_app_sep, split_of_free, IH by (assumption || discriminate).
    reflexivity.
Qed.

Lemma join_app (sep' : string) (l1 l2 : list string) :
  l1 <> [] -> l2 <> [] ->
  PyStr.join sep' (l1 ++ l2)
  = PyStr.join sep' l1 ++ sep' ++ PyStr.join sep' l2.
Proof.
  intros H1 H2. induction l1 as [|x l1 IH]; [now destruct H1|].
  destruct l1 as [|y l1].
  - destruct l2 as [|z l2]; [now destruct H2 | reflexivity].
  - change (PyStr.join sep' ((x :: y :: l1) ++ l2))
      with (x ++ sep' ++ PyStr.join sep' ((y :: l1) ++ l2)).
    rewrite IH by discriminate.
    change (PyStr.join sep' (x :: y :: l1))
      with (x ++ sep' ++ PyStr.join sep' (y :: l1)).
    now rewrite !append_assoc.
Qed.

Lemma endswith_char_single (a c : ascii) :
  PyStr.endswith (String a "") (String c "") = Ascii.eqb a c.
Proof.
  unfold PyStr.endswith. cbn. now destruct (Ascii.eqb a c).
Qed.

Lemma endswith_char_cons (a c : ascii) (s : string) :
  s <> "" ->
  PyStr.endswith (String a s) (String c "") = PyStr.endswith s (String c "").
Proof.
  intro Hs. destruct s as [|b s]; [now destruct Hs|].
  unfold PyStr.endswith. cbn [String.length].
  replace (S (S (String.length s)) - 1)%nat with (S (String.length s)) by lia.
  replace (S (String.length s) - 1)%nat with (String.length s) by lia.
  reflexivity.
Qed.

Lemma endswith_char_inv (c : ascii) (p : string) :
  PyStr.endswith p (String c "") = true -> exists q, p = q ++ String c "".
Proof.
  induction p as [|a p IH]; [discriminate|].
  destruct p as [|b p].
  - rewrite endswith_char_single. intro H. apply Ascii.eqb_eq in H as ->.
    now exists "".
  - rewrite endswith_char_cons by discriminate. intro H.
    destruct (IH H) as [q ->]. now exists (String a q).
Qed.

Lemma lstrip_sep_plain (r : string) :
  PyStr.startswith r "/" = false -> PosixPath.lstrip_sep r = r.
Proof.
  destruct r as [|a r]; [reflexivity|].
  rewrite startswith_char. intro H. apply lstrip_sep_other.
  apply Ascii.eqb_neq in H. congruence.
Qed.

Lemma lstrip_sep_app_all (p r : string) :
  PosixPath.lstrip_sep p = "" ->
  PosixPath.lstrip_sep (p ++ r) = PosixPath.lstrip_sep r.
Proof.
  induction p as [|a p IH]; [reflexivity|].
  destruct (Ascii.eqb_spec a "/") as [->|Ha].
  - exact IH.
  - rewrite lstrip_sep_other by assumption. discriminate.
Qed.

Lemma lstrip_sep_app (p r : string) :
  PosixPath.lstrip_sep p <> "" ->
  PosixPath.lstrip_sep (p ++ r) = PosixPath.lstrip_sep p ++ r.
Proof.
  induction p as [|a p IH]; [intro H; now destruct H|].
  destruct (Ascii.eqb_spec a "/") as [->|Ha].
  - exact IH.
  - intros _. cbn [append]. now rewrite !lstrip_sep_other.
Qed.

Lemma all_slashes_endswith (p : string) :
  PosixPath.lstrip_sep p = "" -> p <> "" -> PyStr.endswith p "/" = true.
Proof.
  induction p as [|a p IH]; [intros _ H; now destruct H|].
  destruct (Ascii.eqb_spec a "/") as [->|Ha].
  - intros Hp _. destruct p as [|b p]; [reflexivity|].
    rewrite endswith_char_cons by discriminate. apply IH; [exact Hp|discriminate].
  - rewrite lstrip_sep_other by assumption. discriminate.
Qed.

Lemma posix_root_app (p r : string) :
  PosixPath.lstrip_sep p <> "" -> PosixPath.root (p ++ r) = PosixPath.root p.
Proof.
  intro H. unfold PosixPath.root.
  rewrite lstrip_sep_app by assumption. rewrite !string_length_app.
  pose proof (lstrip_sep_length p).
  replace (String.length p + String.length r
           - (String.length (PosixPath.lstrip_sep p) + String.length r))%nat
    with (String.length p - String.length (PosixPath.lstrip_sep p))%nat by lia.
  reflexivity.
Qed.

Lemma posix_root_slashes (p r : string) :
  PosixPath.lstrip_sep p = "" ->
  PyStr.startswith r "/" = false ->
  PosixPath.root (p ++ r) = PosixPath.root p.
Proof.
  intros Hp Hr. unfold PosixPath.root.
  rewrite lstrip_sep_app_all, lstrip_sep_plain, Hp by assumption.
  rewrite string_length_app. cbn [String.length].
  replace (String.length p + String.length r - String.length r)%nat
    with (String.length p - 0)%nat by lia.
  reflexivity.
Qed.

(** The components are the kept pieces of the whole text. *)
Lemma parts_all (p : string) :
  PosixPath.parts p = filter PosixPath.keep_part (PyStr.split "/" p).
Proof.
  unfold PosixPath.parts. induction p as [|a p IH]; [reflexivity|].
  destruct (Ascii.eqb_spec a "/") as [->|Ha].
  - cbn [PosixPath.lstrip_sep PyStr.split]. exact IH.
  - now rewrite lstrip_sep_other.
Qed.

Lemma parts_app_sep (a b : string) :
  PosixPath.parts (a ++ String "/" b)
  = (PosixPath.parts a ++ PosixPath.parts b)%list.
Proof. now rewrite !parts_all, split_app_sep, filter_app. Qed.

(** Joining a relative text keeps the root and appends its
    components. *)
Lemma posix_join_rel (p x : string) :
  PyStr.startswith x "/" = false ->
  PosixPath.root (PosixPath.join p x) = PosixPath.root p
  /\ PosixPath.parts (PosixPath.join p x)
     = (PosixPath.parts p ++ PosixPath.parts x)%list.
Proof.
  intro Hx. unfold PosixPath.join. rewrite Hx.
  destruct (String.eqb_spec p "") as [->|Hp]; cbn [orb].
  - cbn [append]. split; [|reflexivity].
    destruct (posix_root_cases x) as [[_ Hr]|[Hs _]];
      [exact Hr | congruence].
  - destruct (PyStr.endswith p "/") eqn:He.
    + split.
      * destruct (String.eqb_spec (PosixPath.lstrip_sep p) "") as [Hl|Hl].
        -- now apply posix_root_slashes.
        -- now apply posix_root_app.
      * destruct (endswith_char_inv _ _ He) as [q ->].
        rewrite append_assoc. cbn [append].
        rewrite parts_app_sep.
        rewrite (parts_app_sep q ""). cbn [PosixPath.parts].
        change (PosixPath.parts "") with (@nil string).
        now rewrite app_nil_r.
    + cbn [append]. split; [|apply parts_app_sep].
      apply posix_root_app. intro Hl.
      rewrite (all_slashes_endswith p Hl Hp) in He. discriminate He.
Qed.

Lemma parts_kept (p x : string) :
  In x (PosixPath.parts p) ->
  PosixPath.keep_part x = true /\ has_char "/" x = false.
Proof.
  rewrite parts_all. intro H. apply filter_In in H as [Hin Hk].
  split; [exact Hk | now apply split_piece_free in Hin].
Qed.

Lemma filter_kept (ps : list string) :
  Forall (fun x => PosixPath.keep_part x = true) ps ->
  filter PosixPath.keep_part ps = ps.
Proof.
  induction 1 as [|x ps Hx _ IH]; [reflexivity|].
  cbn [filter]. now rewrite Hx, IH.
Qed.

Lemma join_parts_head (p : string) :
  PyStr.startswith (PyStr.join "/" (PosixPath.parts p)) "/" = false.
Proof.
  destruct (PosixPath.parts p) as [|x l] eqn:Hp; [reflexivity|].
  destruct (@posix_part_shape p x) as (a & y & Hx & Ha);
    [rewrite Hp; now left|].
  destruct (join_head l Hx) as [z ->].
  rewrite startswith_char. apply Ascii.eqb_neq. congruence.
Qed.

Lemma parts_of_join_parts (p : string) :
  filter PosixPath.keep_part
         (PyStr.split "/" (PyStr.join "/" (PosixPath.parts p)))
  = PosixPath.parts p.
Proof.
  destruct (PosixPath.parts p) as [|x l] eqn:Hp; [reflexivity|].
  rewrite split_join_free.
  - apply filter_kept. apply Forall_forall. intros y Hy.
    apply (parts_kept p). now rewrite Hp.
  - discriminate.
  - apply Forall_forall. intros y Hy. apply (parts_kept p). now rewrite Hp.
Qed.

(** Printing a path and reading the text again gives the same root and
    the same components. *)
Lemma posix_str_canon (p : string) :
  same_path (PosixPath.str p) p.
Proof.
  unfold same_path.
  pose proof (join_parts_head p) as Hh.
  pose proof (parts_of_join_parts p) as Hps.
  unfold PosixPath.str.
  destruct (posix_root_cases p) as [[Hs Hr]|[Hs [Hr|Hr]]]; rewrite Hr.
  - destruct (PosixPath.parts p) as [|x l] eqn:Hp.
    + split; reflexivity.
    + cbn [append]. split.
      * destruct (posix_root_cases (PyStr.join "/" (x :: l)))
          as [[_ Hr']|[Hs' _]]; [exact Hr' | congruence].
      * rewrite parts_all. exact Hps.
  - cbn [append]. split.
    + unfold PosixPath.root. cbn [PosixPath.lstrip_sep String.length].
      rewrite lstrip_sep_plain by assumption.
      replace (S (String.length (PyStr.join "/" (PosixPath.parts p)))
               - String.length (PyStr.join "/" (PosixPath.parts p)))%nat
        with 1%nat by lia.
      reflexivity.
    + rewrite parts_all. cbn [PyStr.split Ascii.eqb Bool.eqb filter].
      exact Hps.
  - cbn [append]. split.
    + unfold PosixPath.root. cbn [PosixPath.lstrip_sep String.length].
      rewrite lstrip_sep_plain by assumption.
      replace (S (S (String.length (PyStr.join "/" (PosixPath.parts p))))
               - String.length (PyStr.join "/" (PosixPath.parts p)))%nat
        with 2%nat by lia.
      reflexivity.
    + rewrite parts_all. cbn [PyStr.split Ascii.eqb Bool.eqb filter].
      exact Hps.
Qed.

Lemma same_path_str (p q : string) :
  same_path p q -> PosixPath.str p = PosixPath.str q.
Proof. intros [Hr Hp]. unfold PosixPath.str. now rewrite Hr, Hp. Qed.

Lemma same_path_join (p q x : string) :
  same_path p q -> same_path (PosixPath.join p x) (PosixPath.join q x).
Proof.
  intros [Hr Hp]. unfold same_path.
  destruct (PyStr.startswith x "/") eqn:Hx.
  - unfold PosixPath.join. rewrite Hx. split; reflexivity.
  - destruct (posix_join_rel p x Hx) as [-> ->].
    destruct (posix_join_rel q x Hx) as [-> ->].
    split; congruence.
Qed.

(** The root after [normalize_root] has the root and the components of
    the given text. *)
Lemma posix_normalize_root_same (mc_path : string) :
  same_path (@normalize_root Posix mc_path) mc_path.
Proof.
  unfold normalize_root. cbn [path_of path_str sep Posix].
  destruct (PyStr.endswith (PosixPath.str mc_path) "/") eqn:He; cbn [negb];
    [split; reflexivity|].
  destruct (posix_str_canon mc_path) as [Hr Hp].
  split.
  - rewrite posix_root_app; [exact Hr|].
    intro Hl. rewrite all_slashes_endswith in He; [discriminate He|exact Hl|].
    apply posix_str_nonempty.
  - rewrite parts_app_sep.
    change (PosixPath.parts "") with (@nil string).
    now rewrite app_nil_r.
Qed.

(** On POSIX the pipeline sees a root only through its root text and
    its components. *)
Section PosixSameRoot.

Variable machine : string.
Variable file_exists : string -> py bool.
Variables p q : @Path Posix.
Hypothesis Hpq : same_path p q.

Local Open Scope path_scope.

Ltac same_str :=
  apply same_path_str; repeat apply same_path_join; exact Hpq.

Lemma same_resolve_run (lib : LibraryEntry) (g a v : string) :
  resolve_run machine file_exists p lib g a v
  = resolve_run machine file_exists q lib g a v.
Proof.
  unfold resolve_run, regular_jar, native_jar, library_base.
  cbn [path_str truediv sep Posix].
  assert (E : forall f,
             PosixPath.str
               (PosixPath.join
                  (PosixPath.join
                     (PosixPath.join
                        (PosixPath.join (PosixPath.join p "libraries")
                           (PyStr.replace g "." "/")) a) v) f)
             = PosixPath.str
                 (PosixPath.join
                    (PosixPath.join
                       (PosixPath.join
                          (PosixPath.join (PosixPath.join q "libraries")
                             (PyStr.replace g "." "/")) a) v) f))
    by (intro f; same_str).
  destruct (native_classifier lib) as [c|]; now rewrite !E.
Qed.

Lemma same_get_library_path_run (lib : LibraryEntry) :
  get_library_path_run machine file_exists p lib
  = get_library_path_run machine file_exists q lib.
Proof.
  destruct (PyStr.split ":" (name lib)) as [|g [|a [|v rest]]] eqn:Hs.
  1-3: now rewrite !get_library_path_run_short by (rewrite Hs; cbn; lia).
  rewrite !(get_library_path_run_parts machine file_exists _ lib Hs).
  now rewrite same_resolve_run.
Qed.

Lemma same_classpath_entries (version_json : VersionDescriptor) :
  classpath_entries machine file_exists p version_json
  = classpath_entries machine file_exists q version_json.
Proof.
  unfold classpath_entries.
  assert (Ev : @path_str Posix (p / "versions" / id version_json
                                / (id version_json ++ ".jar"))
               = @path_str Posix (q / "versions" / id version_json
                                  / (id version_json ++ ".jar")))
    by (cbn [path_str truediv Posix]; same_str).
  rewrite Ev.
  destruct (libraries version_json) as [libs|]; [|reflexivity].
  generalize [@path_str Posix (q / "versions" / id version_json
                               / (id version_json ++ ".jar"))].
  induction libs as [|lib libs IH]; intro result; [reflexivity|].
  cbn [fold_left]. rewrite IH. f_equal.
  unfold libraries_step, get_library_path.
  now rewrite same_get_library_path_run.
Qed.

Lemma same_build_game_arguments (version_name player_name : string)
  (version_json : VersionDescriptor) :
  build_game_arguments p version_name player_name version_json
  = build_game_arguments q version_name player_name version_json.
Proof.
  unfold build_game_arguments, replacements.
  assert (E1 : @path_str Posix p = @path_str Posix q)
    by (cbn [path_str Posix]; same_str).
  assert (E2 : @path_str Posix (p / "assets") = @path_str Posix (q / "assets"))
    by (cbn [path_str truediv Posix]; same_str).
  now rewrite E1, E2.
Qed.

Lemma same_common_args (version_name : string) :
  common_args p version_name = common_args q version_name.
Proof.
  unfold common_args.
  assert (E : forall f,
             @path_str Posix (p / "versions" / version_name / f)
             = @path_str Posix (q / "versions" / version_name / f))
    by (intro f; cbn [path_str truediv Posix]; same_str).
  now rewrite !E.
Qed.

Lemma same_descriptor_path (version_name : string) :
  @path_str Posix (p / "versions" / version_name / (version_name ++ ".json"))
  = @path_str Posix (q / "versions" / version_name
                     / (version_name ++ ".json")).
Proof. cbn [path_str truediv Posix]. same_str. Qed.

End PosixSameRoot.

(** X20. On POSIX the step [# Normalize path] has no effect on the
    outcome of [launch_minecraft]: the descriptor path and the command
    are those obtained from the given root as it is, because a path
    prints without the separator that the step appends. *)
Theorem posix_normalize_no_effect (machine : string)
  (file_exists : string -> py bool) {Process : Type}
  (Popen : list string -> py Process)
  (thread_start : Process -> Stream -> string -> py unit)
  (load : string -> py VersionDescriptor)
  (mc_path version_name player_name : string) (options : Options) :
  @path_str Posix (normalize_root mc_path)
  = @path_str Posix (@path_of Posix mc_path)
  /\ @launch_minecraft Posix machine file_exists Process Popen thread_start
       load mc_path version_name player_name options
     = (let root := @path_of Posix mc_path in
        version_json <-
          load (path_str (root / "versions" / version_name
                          / (version_name ++ ".json"))%path) ;;
        execute_command Popen thread_start
          (build_java_command root version_name (mainClass version_json)
             (build_libraries_path machine file_exists root version_json)
             (build_game_arguments root version_name player_name
                version_json)
             options)).
Proof.
  pose proof (posix_normalize_root_same mc_path) as Hsame.
  split; [now apply same_path_str|].
  unfold launch_minecraft. cbn zeta.
  rewrite (same_descriptor_path _ _ Hsame version_name).
  cbn [path_of Posix].
  destruct (load _) as [vj|e]; [|reflexivity]. cbn [bind]. f_equal.
  unfold build_java_command, build_libraries_path.
  rewrite (same_classpath_entries machine file_exists _ _ Hsame vj).
  rewrite (same_build_game_arguments _ _ Hsame version_name player_name vj).
  now rewrite (same_common_args _ _ Hsame version_name).
Qed.

Lemma has_char_app (c : ascii) (s t : string) :
  has_char c (s ++ t) = has_char c s || has_char c t.
Proof.
  induction s as [|a s IH]; [reflexivity|].
  cbn [append has_char]. now rewrite IH, orb_assoc.
Qed.

(** Without a slash in the text, the pieces between slashes after the
    dots are replaced by slashes are the pieces between dots. *)
Lemma split_replace_dot (g : string) :
  has_char "/" g = false ->
  PyStr.split "/" (PyStr.replace g "." "/") = PyStr.split "." g.
Proof.
  induction g as [|x g IH]; intro H; [reflexivity|].
  cbn [has_char] in H. apply orb_false_iff in H as [Hx Hg].
  destruct (Ascii.eqb_spec x ".") as [->|Hdot].
  - pose proof (replace_head_match "." "" "/" g) as E.
    cbn [append] in E. rewrite E.
    cbn [PyStr.split Ascii.eqb Bool.eqb]. now rewrite IH.
  - rewrite replace_head_other.
    + cbn [PyStr.split]. rewrite Hx, IH by assumption.
      apply Ascii.eqb_neq in Hdot. now rewrite Hdot.
    + discriminate.
    + rewrite prefix_cons. apply andb_false_iff. left.
      apply Ascii.eqb_neq. congruence.
Qed.

Lemma dotted_pieces_kept (g : string) :
  dotted_name g = true ->
  Forall (fun x => PosixPath.keep_part x = true) (PyStr.split "." g).
Proof.
  unfold dotted_name. intro H. apply andb_true_iff in H as [_ H].
  rewrite forallb_forall in H. apply Forall_forall. intros x Hx.
  unfold PosixPath.keep_part. rewrite (H x Hx). cbn [andb].
  apply split_piece_free in Hx.
  destruct (String.eqb_spec x ".") as [->|]; [discriminate Hx | reflexivity].
Qed.

Lemma dotted_replace_head (g : string) :
  dotted_name g = true ->
  PyStr.startswith (PyStr.replace g "." "/") "/" = false.
Proof.
  unfold dotted_name. intro H. apply andb_true_iff in H as [Hs Hp].
  apply negb_true_iff in Hs.
  destruct g as [|x g]; [discriminate Hp|].
  cbn [has_char] in Hs. apply orb_false_iff in Hs as [Hx _].
  destruct (Ascii.eqb_spec x ".") as [->|Hdot]; [discriminate Hp|].
  rewrite replace_head_other.
  - rewrite startswith_char. now rewrite Ascii.eqb_sym.
  - discriminate.
  - rewrite prefix_cons. apply andb_false_iff. left.
    apply Ascii.eqb_neq. congruence.
Qed.

Lemma dotted_replace_parts (g : string) :
  dotted_name g = true ->
  PosixPath.parts (PyStr.replace g "." "/") = PyStr.split "." g.
Proof.
  intro H. rewrite parts_all, split_replace_dot.
  - now apply filter_kept, dotted_pieces_kept.
  - unfold dotted_name in H. apply andb_true_iff in H as [H _].
    now apply negb_true_iff in H.
Qed.

Lemma simple_component_parts (x : string) :
  simple_component x = true ->
  PyStr.startswith x "/" = false /\ PosixPath.parts x = [x].
Proof.
  unfold simple_component. intro H.
  apply andb_true_iff in H as [H Hs]. apply negb_true_iff in Hs.
  split.
  - destruct x as [|c x]; [reflexivity|].
    cbn [has_char] in Hs. apply orb_false_iff in Hs as [Hc _].
    rewrite startswith_char. now rewrite Ascii.eqb_sym.
  - rewrite parts_all, split_of_free by assumption.
    cbn [filter]. unfold PosixPath.keep_part. now rewrite H.
Qed.

Lemma jar_name_simple (a v : string) :
  simple_component a = true -> has_char "/" v = false ->
  simple_component (a ++ "-" ++ v ++ ".jar") = true.
Proof.
  unfold simple_component. intros Ha Hv.
  apply andb_true_iff in Ha as [Ha Hs]. apply andb_true_iff in Ha as [Ha _].
  apply negb_true_iff in Hs.
  rewrite !has_char_app, Hs, Hv. cbn [has_char Ascii.eqb Bool.eqb orb negb].
  rewrite andb_true_r.
  destruct a as [|c a]; [discriminate Ha|].
  assert (Hr : String.eqb (a ++ "-" ++ v ++ ".jar") "" = false)
    by (destruct a; reflexivity).
  cbn [append String.eqb] in *. rewrite Hr. now destruct (Ascii.eqb c ".").
Qed.

Lemma posix_str_parts (p : string) :
  PosixPath.parts p <> [] ->
  PosixPath.str p = PosixPath.root p ++ PyStr.join "/" (PosixPath.parts p).
Proof.
  intro H. unfold PosixPath.str.
  destruct (PosixPath.root p); [|reflexivity].
  destruct (PosixPath.parts p); [now destruct H | reflexivity].
Qed.

(** X21. On POSIX, for a root with at least one component, a group
    whose pieces between dots are not empty and have no slash, and an
    artifact and a version that are simple path components, an entry
    without a windows classifier resolves to the text
    [<root>/libraries/<group with slashes for dots>/<artifact>/<version>/<artifact>-<version>.jar]
    when that file exists, and to none otherwise. *)
Theorem posix_library_path (machine : string) (file_exists : string -> py bool)
  (mc_path : @Path Posix) (lib : LibraryEntry) (g a v : string) :
  PyStr.split ":" (name lib) = [g; a; v] ->
  native_classifier lib = None ->
  PosixPath.parts mc_path <> [] ->
  dotted_name g = true ->
  simple_component a = true ->
  simple_component v = true ->
  @get_library_path Posix machine file_exists mc_path lib
  = (let jar := @path_str Posix mc_path ++ "/libraries/"
                ++ PyStr.replace g "." "/" ++ "/" ++ a ++ "/" ++ v ++ "/"
                ++ a ++ "-" ++ v ++ ".jar" in
     match file_exists jar with
     | Ok true => Some jar
     | Ok false => None
     | Raise _ => None
     end).
Proof.
  intros Hs Hn Hmc Hg Ha Hv.
  unfold get_library_path.
  rewrite (get_library_path_run_parts machine file_exists mc_path lib Hs).
  unfold resolve_run, probe. rewrite Hn.
  assert (Hfile : simple_component (a ++ "-" ++ v ++ ".jar") = true).
  { apply jar_name_simple; [exact Ha|].
    unfold simple_component in Hv. apply andb_true_iff in Hv as [_ Hv].
    now apply negb_true_iff in Hv. }
  destruct (simple_component_parts _ Ha) as [Ha1 Ha2].
  destruct (simple_component_parts _ Hv) as [Hv1 Hv2].
  destruct (simple_component_parts _ Hfile) as [Hf1 Hf2].
  assert (E : regular_jar mc_path g a v
              = @path_str Posix mc_path ++ "/libraries/"
                ++ PyStr.replace g "." "/" ++ "/" ++ a ++ "/" ++ v ++ "/"
                ++ a ++ "-" ++ v ++ ".jar").
  { unfold regular_jar, library_base. cbn [path_str truediv sep Posix].
    set (p1 := PosixPath.join mc_path "libraries").
    set (p2 := PosixPath.join p1 (PyStr.replace g "." "/")).
    set (p3 := PosixPath.join p2 a).
    set (p4 := PosixPath.join p3 v).
    set (p5 := PosixPath.join p4 (a ++ "-" ++ v ++ ".jar")).
    destruct (posix_join_rel mc_path "libraries" eq_refl) as [R1 P1].
    destruct (posix_join_rel p1 _ (dotted_replace_head g Hg)) as [R2 P2].
    destruct (posix_join_rel p2 a Ha1) as [R3 P3].
    destruct (posix_join_rel p3 v Hv1) as [R4 P4].
    destruct (posix_join_rel p4 _ Hf1) as [R5 P5].
    fold p1 in R1, P1. fold p2 in R2, P2. fold p3 in R3, P3.
    fold p4 in R4, P4. fold p5 in R5, P5.
    rewrite dotted_replace_parts in P2 by assumption.
    rewrite Ha2 in P3. rewrite Hv2 in P4. rewrite Hf2 in P5.
    change (PosixPath.parts "libraries") with ["libraries"] in P1.
    assert (HP : PosixPath.parts p5
                 = (PosixPath.parts mc_path
                    ++ ("libraries" :: PyStr.split "." g
                        ++ [a; v; (a ++ "-" ++ v ++ ".jar")%string]))%list).
    { rewrite P5, P4, P3, P2, P1. rewrite <- !app_assoc. reflexivity. }
    assert (HR : PosixPath.root p5 = PosixPath.root mc_path) by congruence.
    rewrite posix_str_parts, HR, HP.
    2: { rewrite HP. intro Hnil. apply app_eq_nil in Hnil as [Hnil _].
         now apply Hmc. }
    rewrite (posix_str_parts mc_path Hmc).
    rewrite join_app by (assumption || discriminate).
    change (PyStr.join "/" ("libraries" :: PyStr.split "." g
                            ++ [a; v; (a ++ "-" ++ v ++ ".jar")%string]))
      with (PyStr.join "/" (["libraries"]
                            ++ (PyStr.split "." g
                                ++ [a; v; (a ++ "-" ++ v ++ ".jar")%string]))%list).
    rewrite join_app; [|discriminate|].
    2: { intro Hnil. apply app_eq_nil in Hnil as [_ Hnil]. discriminate Hnil. }
    rewrite join_app; [|apply split_not_nil|discriminate].
    rewrite <- split_replace_dot.
    2: { unfold dotted_name in Hg. apply andb_true_iff in Hg as [Hg _].
         now apply negb_true_iff in Hg. }
    rewrite join_split.
    cbn [PyStr.join String.concat].
    rewrite !append_assoc. reflexivity. }
  rewrite E. cbn zeta.
  now destruct (file_exists _) as [[]|].
Qed.

Lemma posix_library_path_witness :
  @get_library_path Posix "AMD64" (Sample.fs Sample.files) Sample.root
    Sample.foo
  = Some ".minecraft/libraries/org/example/foo/1.0/foo-1.0.jar".
Proof.
  apply (posix_library_path "AMD64" (Sample.fs Sample.files) Sample.root
           Sample.foo "org.example" "foo" "1.0");
    try reflexivity; discriminate.
Defined.

Lemma simple_component_app (a t : string) :
  simple_component a = true -> has_char "/" t = false ->
  simple_component (a ++ t) = true.
Proof.
  unfold simple_component. intros Ha Ht.
  apply andb_true_iff in Ha as [Ha Hs]. apply andb_true_iff in Ha as [Ha Hd].
  apply negb_true_iff in Hs. rewrite has_char_app, Hs, Ht.
  destruct a as [|c a]; [discriminate Ha|].
  cbn [append String.eqb orb negb andb] in *. rewrite andb_true_r.
  destruct (Ascii.eqb c "."); [|reflexivity].
  destruct a as [|d a]; [discriminate Hd | reflexivity].
Qed.

(** A simple component joined to a path with components is printed
    after the path and one slash. *)
Lemma posix_child (p x : string) :
  PosixPath.parts p <> [] -> simple_component x = true ->
  PosixPath.str (PosixPath.join p x) = PosixPath.str p ++ "/" ++ x
  /\ PosixPath.parts (PosixPath.join p x) <> [].
Proof.
  intros Hp Hx. destruct (simple_component_parts x Hx) as [Hx1 Hx2].
  destruct (posix_join_rel p x Hx1) as [R P]. rewrite Hx2 in P.
  assert (Hne : PosixPath.parts (PosixPath.join p x) <> []).
  { rewrite P. intro H. apply app_eq_nil in H as [_ H]. discriminate H. }
  split; [|exact Hne].
  rewrite !posix_str_parts by assumption. rewrite R, P.
  rewrite join_app by (assumption || discriminate).
  cbn [PyStr.join String.concat]. now rewrite !append_assoc.
Qed.

Lemma posix_child3 (p x y z : string) :
  PosixPath.parts p <> [] ->
  simple_component x = true -> simple_component y = true ->
  simple_component z = true ->
  PosixPath.str (PosixPath.join (PosixPath.join (PosixPath.join p x) y) z)
  = PosixPath.str p ++ "/" ++ x ++ "/" ++ y ++ "/" ++ z.
Proof.
  intros Hp Hx Hy Hz.
  destruct (posix_child p x Hp Hx) as [E1 N1].
  destruct (posix_child _ y N1 Hy) as [E2 N2].
  destruct (posix_child _ z N2 Hz) as [E3 _].
  rewrite E3, E2, E1. now rewrite !append_assoc.
Qed.

(** X22. On POSIX, for a root with at least one component and a
    version name that is a simple path component, [launch_minecraft]
    reads the descriptor at the text
    [<root>/versions/<version>/<version>.json], where [<root>] is the
    root as [pathlib] prints it, and the classpath of a descriptor whose
    id is a simple component starts with
    [<root>/versions/<id>/<id>.jar]. *)
Theorem posix_version_files (machine : string) (file_exists : string -> py bool)
  {Process : Type} (Popen : list string -> py Process)
  (thread_start : Process -> Stream -> string -> py unit)
  (load : string -> py VersionDescriptor)
  (mc_path version_name player_name : string) (options : Options) :
  PosixPath.parts mc_path <> [] ->
  simple_component version_name = true ->
  @launch_minecraft Posix machine file_exists Process Popen thread_start
    load mc_path version_name player_name options
  = (version_json <-
       load (PosixPath.str mc_path ++ "/versions/" ++ version_name ++ "/"
             ++ version_name ++ ".json") ;;
     execute_command Popen thread_start
       (@build_java_command Posix mc_path version_name
          (mainClass version_json)
          (@build_libraries_path Posix machine file_exists mc_path
             version_json)
          (@build_game_arguments Posix mc_path version_name player_name
             version_json)
          options))
  /\ (forall version_json,
         simple_component (id version_json) = true ->
         hd "" (@classpath_entries Posix machine file_exists
                  (normalize_root mc_path) version_json)
         = PosixPath.str mc_path ++ "/versions/" ++ id version_json ++ "/"
           ++ id version_json ++ ".jar").
Proof.
  intros Hmc Hv.
  pose proof (posix_normalize_root_same mc_path) as Hsame.
  split.
  - assert (Hfile : simple_component (version_name ++ ".json") = true)
      by (now apply simple_component_app).
    pose proof (posix_child3 mc_path "versions" version_name
                  (version_name ++ ".json") Hmc eq_refl Hv Hfile) as E.
    unfold launch_minecraft. cbn zeta.
    rewrite (same_descriptor_path _ _ Hsame version_name).
    cbn [path_str truediv path_of Posix]. rewrite E.
    cbn [append]. rewrite ?append_assoc. cbn [append].
    destruct (load _) as [vj|e]; [|reflexivity]. cbn [bind]. f_equal.
    unfold build_java_command, build_libraries_path.
    rewrite (same_classpath_entries machine file_exists _ _ Hsame vj).
    rewrite (same_build_game_arguments _ _ Hsame version_name player_name vj).
    now rewrite (same_common_args _ _ Hsame version_name).
  - intros vj Hid.
    rewrite (same_classpath_entries machine file_exists _ _ Hsame vj).
    assert (Hfile : simple_component (id vj ++ ".jar") = true)
      by (now apply simple_component_app).
    pose proof (posix_child3 mc_path "versions" (id vj) (id vj ++ ".jar")
                  Hmc eq_refl Hid Hfile) as E.
    unfold classpath_entries.
    assert (Hhd : forall (libs : list LibraryEntry) (x : string)
                         (result : list string),
               hd "" (fold_left
                        (@libraries_step Posix machine file_exists mc_path)
                        libs (x :: result)) = x).
    { induction libs as [|lib libs IH]; intros x result; [reflexivity|].
      cbn [fold_left].
      rewrite libraries_step_from_nil. cbn [app]. apply IH. }
    cbn [path_str truediv Posix]. rewrite E.
    destruct (libraries vj) as [libs|]; [rewrite Hhd|cbn [hd]];
      cbn [append]; rewrite ?append_assoc; reflexivity.
Qed.

Lemma posix_version_files_witness :
  @launch_minecraft Posix "AMD64" (Sample.fs Sample.files) _
    Sample.popen_ok Sample.thread_ok
    (fun p => Raise (FileNotFoundError p)) ".minecraft/" "1.20.1" "Player123"
    Sample.default_options
  = Raise (FileNotFoundError ".minecraft/versions/1.20.1/1.20.1.json")
  /\ hd "" (@classpath_entries Posix "AMD64" (Sample.fs Sample.files)
              (normalize_root ".minecraft/") Sample.descriptor)
     = ".minecraft/versions/1.20.1/1.20.1.jar".
Proof.
  destruct (posix_version_files "AMD64" (Sample.fs Sample.files)
              Sample.popen_ok Sample.thread_ok
              (fun p => Raise (FileNotFoundError p)) ".minecraft/" "1.20.1"
              "Player123" Sample.default_options) as [H1 H2].
  - discriminate.
  - reflexivity.
  - split; [exact H1 | apply (H2 Sample.descriptor); reflexivity].
Defined.

(** X23. On POSIX, for a root with at least one component and a
    version name that is a simple path component, the fixed block of the
    command is the list below: the paths it embeds are
    [<root>/versions/<version>/log4j2.xml],
    [<root>/versions/<version>/<version>.jar] and, four times,
    [<root>/versions/<version>/natives-windows-x86_64], whatever the
    machine is. *)
Theorem posix_common_args (mc_path : @Path Posix) (version_name : string) :
  PosixPath.parts mc_path <> [] ->
  simple_component version_name = true ->
  @common_args Posix mc_path version_name
  = (let dir := PosixPath.str mc_path ++ "/versions/" ++ version_name in
     [ "-Dfile.encoding=GB18030";
       "-Dsun.stdout.encoding=GB18030";
       "-Dsun.stderr.encoding=GB18030";
       "-Djava.rmi.server.useCodebaseOnly=true";
       "-Dcom.sun.jndi.rmi.object.trustURLCodebase=false";
       "-Dcom.sun.jndi.cosnaming.object.trustURLCodebase=false";
       "-Dlog4j2.formatMsgNoLookups=true";
       "-Dlog4j.configurationFile=" ++ dir ++ "/log4j2.xml";
       "-Dminecraft.client.jar=" ++ dir ++ "/" ++ version_name ++ ".jar";
       "-XX:+UnlockExperimentalVMOptions";
       "-XX:+UseG1GC";
       "-XX:G1NewSizePercent=20";
       "-XX:G1ReservePercent=20";
       "-XX:MaxGCPauseMillis=50";
       "-XX:G1HeapRegionSize=32m";
       "-XX:-UseAdaptiveSizePolicy";
       "-XX:-OmitStackTraceInFastThrow";
       "-XX:-DontCompileHugeMethods";
       "-Dfml.ignoreInvalidMinecraftCertificates=true";
       "-Dfml.ignorePatchDiscrepancies=true";
       "-XX:HeapDumpPath=MojangTricksIntelDriversForPerformance_javaw.exe_minecraft.exe.heapdump";
       "-Djava.library.path=" ++ dir ++ "/natives-windows-x86_64";
       "-Djna.tmpdir=" ++ dir ++ "/natives-windows-x86_64";
       "-Dorg.lwjgl.system.SharedLibraryExtractPath=" ++ dir
         ++ "/natives-windows-x86_64";
       "-Dio.netty.native.workdir=" ++ dir ++ "/natives-windows-x86_64";
       "-Dminecraft.launcher.brand=WMML";
       "-Dminecraft.launcher.version=0.1.26" ]).
Proof.
  intros Hmc Hv.
  assert (E : forall z, simple_component z = true ->
             @path_str Posix
               (truediv (truediv (truediv mc_path "versions") version_name) z)
             = (PosixPath.str mc_path ++ "/versions/" ++ version_name)
               ++ "/" ++ z).
  { intros z Hz. cbn [path_str truediv Posix].
    rewrite (posix_child3 mc_path "versions" version_name z Hmc eq_refl Hv Hz).
    cbn [append]. now rewrite ?append_assoc. }
  unfold common_args. cbn zeta.
  rewrite (E "log4j2.xml" eq_refl), (E "natives-windows-x86_64" eq_refl).
  rewrite (E (version_name ++ ".jar"))
    by (now apply simple_component_app).
  reflexivity.
Qed.

Lemma posix_common_args_witness :
  nth_error (@common_args Posix Sample.root "1.20.1") 21
  = Some "-Djava.library.path=.minecraft/versions/1.20.1/natives-windows-x86_64".
Proof.
  rewrite (posix_common_args Sample.root "1.20.1");
    [reflexivity | discriminate | reflexivity].
Defined.

(** * Claims on the path resolver and on the root *)

Lemma split_three (c : ascii) (s g a v : string) (rest : list string) :
  PyStr.split c s = g :: a :: v :: rest ->
  PyStr.split c (g ++ String c (a ++ String c v)) = [g; a; v].
Proof.
  intro Hs.
  assert (Hfree : forall x, In x [g; a; v] -> has_char c x = false).
  { intros x Hx. apply (split_piece_free c s). rewrite Hs.
    cbn [In] in *. tauto. }
  change (g ++ String c (a ++ String c v))
    with (PyStr.join (String c "") [g; a; v]).
  apply split_join_free; [discriminate|].
  apply Forall_forall. exact Hfree.
Qed.

(** The resolver asks the file system about paths under
    [root/libraries] only. *)
Section ResolverReads.

Context {F : PathFlavour}.
Variable machine : string.
Variables file_exists file_exists' : string -> py bool.
Variable mc_path : Path.

Local Open Scope path_scope.

Hypothesis Hagree :
  forall x y z w,
    file_exists (path_str (mc_path / "libraries" / x / y / z / w))
    = file_exists' (path_str (mc_path / "libraries" / x / y / z / w)).



End ResolverReads.

(** C1, as the code behaves.  An entry whose coordinate does not split
    into exactly three parts never makes [get_library_path] raise: with
    fewer than three parts the error is caught, one diagnostic line is
    printed and none is returned, as for a library that is not found;
    with more than three parts the parts after the third are ignored:
    the call returns and prints what it does for the entry whose
    coordinate is made of the first three parts. *)
Theorem malformed_coordinate_outcome {F : PathFlavour} (machine : string)
  (file_exists : string -> py bool) (mc_path : Path) (lib : LibraryEntry) :
  List.length (PyStr.split ":" (name lib)) <> 3%nat ->
  ((List.length (PyStr.split ":" (name lib)) < 3)%nat
   /\ get_library_path_run machine file_exists mc_path lib
      = (["Error getting library path: list index out of range"], None))
  \/ (exists g a v rest,
         PyStr.split ":" (name lib) = g :: a :: v :: rest
         /\ rest <> []
         /\ PyStr.split ":" (g ++ ":" ++ a ++ ":" ++ v) = [g; a; v]
         /\ get_library_path_run machine file_exists mc_path lib
            = get_library_path_run machine file_exists mc_path
                (with_name lib (g ++ ":" ++ a ++ ":" ++ v))).
Proof.
  intro Hn.
  destruct (PyStr.split ":" (name lib)) as [|g [|a [|v rest]]] eqn:Hs.
  1-3: left; split; [cbn; lia|];
       apply get_library_path_run_short; rewrite Hs; cbn; lia.
  right. exists g, a, v, rest.
  pose proof (split_three _ _ _ _ _ _ Hs) as H3.
  split; [reflexivity|]. split; [|split].
  - intros ->. now apply Hn.
  - exact H3.
  - rewrite (get_library_path_run_parts machine file_exists mc_path lib Hs).
    now rewrite (get_library_path_run_parts machine file_exists mc_path
                   (with_name lib (g ++ ":" ++ a ++ ":" ++ v)) H3).
Qed.

Lemma malformed_coordinate_outcome_witness :
  get_library_path_run "AMD64" (fun _ => Ok true) Sample.root
    Sample.foo_two_parts
  = (["Error getting library path: list index out of range"], None)
  /\ get_library_path_run "AMD64" (Sample.fs Sample.files) Sample.root
       Sample.foo_four_parts
     = get_library_path_run "AMD64" (Sample.fs Sample.files) Sample.root
         Sample.foo.
Proof.
  split.
  - destruct (malformed_coordinate_outcome "AMD64" (fun _ => Ok true)
                Sample.root Sample.foo_two_parts)
      as [[_ H]|(g & a & v & rest & Hs & _)].
    + vm_compute. lia.
    + exact H.
    + vm_compute in Hs. discriminate Hs.
  - destruct (malformed_coordinate_outcome "AMD64" (Sample.fs Sample.files)
                Sample.root Sample.foo_four_parts)
      as [[Hl _]|(g & a & v & rest & Hs & _ & _ & H)].
    + vm_compute. lia.
    + vm_compute in Hl. lia.
    + injection Hs as <- <- <- _. exact H.
Defined.

(** C1, as stated, fails: for the coordinate [org.example:foo] the call
    returns none, the value of the not-found outcome, whatever files
    exist. *)
Lemma two_part_coordinate_returns_none :
  get_library_path "AMD64" (fun _ => Ok true) Sample.root
    Sample.foo_two_parts
  = None
  /\ get_library_path "AMD64" (fun _ => Ok false) Sample.root Sample.foo
     = None.
Proof. split; reflexivity. Qed.

(** C4, as the code behaves.  For an entry whose coordinate has exactly
    three parts, [get_library_path] returns the native-classifier jar,
    with [${arch}] replaced by 64 on a machine whose name ends with 64
    and by 32 otherwise, when the entry declares a windows classifier
    and the existence check of that jar answers yes; when there is no
    classifier or the check answers no, it returns the plain jar when
    the check of the plain jar answers yes, and none when it answers
    no, and prints nothing; when a check raises, the error is caught,
    one line is printed and none is returned, without a further check.
    An entry that gives none is skipped by the classpath builder, which
    returns the classpath of the other entries. *)
Theorem get_library_path_well_formed {F : PathFlavour} (machine : string)
  (file_exists : string -> py bool) (mc_path : Path) (lib : LibraryEntry)
  (g a v : string) :
  PyStr.split ":" (name lib) = [g; a; v] ->
  let base :=
    (mc_path / "libraries" / PyStr.replace g "." sep / a / v)%path in
  let plain := path_str (base / (a ++ "-" ++ v ++ ".jar"))%path in
  let native c :=
    path_str
      (base / (a ++ "-" ++ v ++ "-"
               ++ PyStr.replace c "${arch}"
                    (if PyStr.endswith machine "64" then "64" else "32")
               ++ ".jar"))%path in
  let caught e := (["Error getting library path: " ++ exn_str e], None) in
  let regular :=
    match file_exists plain with
    | Ok true => ([], Some plain)
    | Ok false => ([], None)
    | Raise e => caught e
    end in
  get_library_path_run machine file_exists mc_path lib
  = match native_classifier lib with
    | Some c =>
        match file_exists (native c) with
        | Ok true => ([], Some (native c))
        | Ok false => regular
        | Raise e => caught e
        end
    | None => regular
    end
  /\ (get_library_path machine file_exists mc_path lib = None ->
      forall version_json l1 l2,
        build_libraries_path machine file_exists mc_path
          (with_libraries version_json (l1 ++ lib :: l2)%list)
        = build_libraries_path machine file_exists mc_path
            (with_libraries version_json (l1 ++ l2)%list)).
Proof.
  intro Hs. cbn zeta. split.
  - rewrite (get_library_path_run_parts machine file_exists mc_path lib Hs).
    unfold resolve_run, probe, native_jar, regular_jar, library_base,
      natives_arch.
    reflexivity.
  - intros Hnone version_json l1 l2.
    unfold build_libraries_path, classpath_entries, with_libraries.
    cbn [libraries id]. f_equal.
    apply fold_libraries_step_skip.
    rewrite Hnone. now destruct (check_library_rules machine lib).
Qed.

Lemma get_library_path_well_formed_witness :
  get_library_path_run "AMD64" (Sample.fs Sample.files) Sample.root
    Sample.lwjgl
  = ([], Some ".minecraft/libraries/org/lwjgl/lwjgl-platform/2.9.4/lwjgl-platform-2.9.4-natives-windows-64.jar")
  /\ get_library_path_run "x86"
       (Sample.fs [".minecraft/libraries/org/lwjgl/lwjgl-platform/2.9.4/lwjgl-platform-2.9.4-natives-windows-32.jar"])
       Sample.root Sample.lwjgl
     = ([], Some ".minecraft/libraries/org/lwjgl/lwjgl-platform/2.9.4/lwjgl-platform-2.9.4-natives-windows-32.jar")
  /\ get_library_path_run "AMD64" (Sample.fs []) Sample.root Sample.foo
     = ([], None)
  /\ (forall version_json l1 l2,
         build_libraries_path "AMD64" (Sample.fs []) Sample.root
           (with_libraries version_json (l1 ++ Sample.foo :: l2)%list)
         = build_libraries_path "AMD64" (Sample.fs []) Sample.root
             (with_libraries version_json (l1 ++ l2)%list)).
Proof.
  split; [|split; [|split]].
  - rewrite (proj1 (get_library_path_well_formed "AMD64"
                      (Sample.fs Sample.files) Sample.root Sample.lwjgl
                      "org.lwjgl" "lwjgl-platform" "2.9.4" eq_refl)).
    reflexivity.
  - rewrite (proj1 (get_library_path_well_formed "x86"
                      (Sample.fs [".minecraft/libraries/org/lwjgl/lwjgl-platform/2.9.4/lwjgl-platform-2.9.4-natives-windows-32.jar"])
                      Sample.root Sample.lwjgl
                      "org.lwjgl" "lwjgl-platform" "2.9.4" eq_refl)).
    reflexivity.
  - rewrite (proj1 (get_library_path_well_formed "AMD64" (Sample.fs [])
                      Sample.root Sample.foo "org.example" "foo" "1.0"
                      eq_refl)).
    reflexivity.
  - apply (proj2 (get_library_path_well_formed "AMD64" (Sample.fs [])
                    Sample.root Sample.foo "org.example" "foo" "1.0"
                    eq_refl)).
    reflexivity.
Defined.

(** C4, as stated, fails: for an entry with a three-part coordinate and
    a windows classifier of 300 characters, on a file system that holds
    the plain jar and refuses names of more than 255 characters, the
    check of the native jar raises, and the call returns none and prints
    one line although the plain jar exists. *)
Lemma native_check_error_hides_plain_jar :
  PyStr.split ":" (name Sample.long_classifier) = ["org.example"; "foo"; "1.0"]
  /\ Sample.fs_limit Sample.files
       ".minecraft/libraries/org/example/foo/1.0/foo-1.0.jar" = Ok true
  /\ get_library_path_run "AMD64" (Sample.fs_limit Sample.files) Sample.root
       Sample.long_classifier
     = (["Error getting library path: [Errno 36] File name too long: '"
         ++ ".minecraft/libraries/org/example/foo/1.0/foo-1.0-"
         ++ String.concat "" (repeat "x" 300) ++ ".jar'"], None)
  /\ get_library_path "AMD64" (Sample.fs_limit Sample.files) Sample.root
       Sample.long_classifier
     <> Some ".minecraft/libraries/org/example/foo/1.0/foo-1.0.jar".
Proof.
  split; [reflexivity|]. split; [reflexivity|]. split.
  - vm_compute. reflexivity.
  - vm_compute. discriminate.
Qed.



